(** * ublox/modules.py: AT transaction engine, URC dispatch, radio statistics
      and network registration of the SARA-N211 / SARA-R4 drivers.

    The Python module is embedded shallowly.  Python [bytes] are lists of
    [byte], Python [str] are lists of Unicode code points, exceptions are an
    inductive type, the serial port is a queue of lines still to be read
    together with the log of what was written, and [time.time()] reads a
    clock that [time.sleep] advances.  Logging calls have no effect on the
    behaviour and are left out. *)

From Stdlib Require Import ZArith NArith List String Ascii Bool Lia.
From Stdlib Require Import Strings.Byte Numbers.DecimalString.
Import ListNotations.

Local Open Scope Z_scope.

(** ** Python values *)

Definition bytes := list byte.
Definition codepoint := N.
Definition str := list codepoint.

(** [b "OK"] is the literal [b'OK'], [s "OK"] the literal ['OK']. *)
Definition b (lit : string) : bytes := list_byte_of_string lit.
Definition s (lit : string) : str := map Byte.to_N (list_byte_of_string lit).
Arguments b lit%_string.
Arguments s lit%_string.

Inductive exn : Type :=
| ValueError
| IndexError
| AttributeError
| UnicodeDecodeError
| UnicodeEncodeError
| ATError
| CMEError (payload : str)
| ConnectionTimeoutError.

(** A pure computation that may raise. *)
Definition result (A : Type) : Type := (exn + A)%type.

Definition rbind {A B} (r : result A) (k : A -> result B) : result B :=
  match r with
  | inl e => inl e
  | inr a => k a
  end.

Definition or_raise {A} (e : exn) (o : option A) : result A :=
  match o with
  | Some a => inr a
  | None => inl e
  end.

(** What the interpreter contributes beyond ASCII.  The driver only ever
    compares against ASCII constants, so the tables stay abstract. *)
Record Runtime : Type := {
  (** [str.upper()] of one code point above 127 (may expand, as in
      ['ß'.upper() == 'SS']). *)
  unicode_upper : codepoint -> list codepoint;
  (** decimal value of a code point above 126 of category Nd. *)
  unicode_decimal : codepoint -> option N;
  (** [sys.get_int_max_str_digits()]; [0] switches the limit off. *)
  int_max_str_digits : N
}.

(** A runtime whose tables are empty above ASCII; enough to run the driver
    on ASCII traffic. *)
Definition ascii_runtime : Runtime :=
  {| unicode_upper := fun c => [c];
     unicode_decimal := fun _ => None;
     int_max_str_digits := 4300 |}.

(** ** Sequence operations shared by [bytes] and [str] *)

Section Sequences.
Context {A : Type} (eqb : A -> A -> bool).

Fixpoint seq_eqb (x y : list A) : bool :=
  match x, y with
  | [], [] => true
  | a :: x', c :: y' => eqb a c && seq_eqb x' y'
  | _, _ => false
  end.

(** [x.startswith(p)] *)
Fixpoint startswith (p x : list A) : bool :=
  match p, x with
  | [], _ => true
  | a :: p', c :: x' => eqb a c && startswith p' x'
  | _ :: _, [] => false
  end.

(** [x.endswith(p)] *)
Definition endswith (p x : list A) : bool :=
  startswith (rev p) (rev x).

(** [sub in x] *)
Fixpoint contains (sub x : list A) : bool :=
  startswith sub x ||
  match x with
  | [] => false
  | _ :: x' => contains sub x'
  end.

(** [x.find(c)] for a one-element needle: first index, or -1. *)
Fixpoint find_from (c : A) (x : list A) (i : Z) : Z :=
  match x with
  | [] => -1
  | a :: x' => if eqb a c then i else find_from c x' (i + 1)
  end.

Definition find (c : A) (x : list A) : Z := find_from c x 0.

(** [x.split(c)] for a one-element separator. *)
Fixpoint split (c : A) (x : list A) : list (list A) :=
  match x with
  | [] => [[]]
  | a :: x' =>
      if eqb a c then [] :: split c x'
      else match split c x' with
           | [] => [[a]]
           | p :: ps => (a :: p) :: ps
           end
  end.

(** [x.replace(c, '')] for a one-element [c]. *)
Definition remove_all (c : A) (x : list A) : list A :=
  filter (fun a => negb (eqb a c)) x.
End Sequences.

(** Bounds of a slice are clamped as Python does: a negative bound counts
    from the end, and both are cut to [0 .. len]. *)
Definition clamp (len i : Z) : Z :=
  if i <? 0 then Z.max 0 (i + len) else Z.min i len.

(** [x[lo:hi]]; [None] is an omitted bound. *)
Definition slice {A} (x : list A) (lo hi : option Z) : list A :=
  let len := Z.of_nat (List.length x) in
  let i := match lo with None => 0 | Some i => clamp len i end in
  let j := match hi with None => len | Some j => clamp len j end in
  firstn (Z.to_nat (j - i)) (skipn (Z.to_nat i) x).

(** [x[-1]] *)
Definition last_item {A} (x : list A) : result A :=
  match rev x with
  | [] => inl IndexError
  | a :: _ => inr a
  end.

(** [x[i]] for [i >= 0] *)
Definition item {A} (x : list A) (i : nat) : result A :=
  or_raise IndexError (nth_error x i).

Fixpoint lstrip_by {A} (sp : A -> bool) (x : list A) : list A :=
  match x with
  | [] => []
  | a :: x' => if sp a then lstrip_by sp x' else x
  end.

Definition strip_by {A} (sp : A -> bool) (x : list A) : list A :=
  rev (lstrip_by sp (rev (lstrip_by sp x))).

Definition bytes_eqb : bytes -> bytes -> bool := seq_eqb Byte.eqb.
Definition str_eqb : str -> str -> bool := seq_eqb N.eqb.

(** ** Built-ins of [bytes] and [str] *)

Definition byte_of_N (n : N) : byte :=
  match Byte.of_N n with
  | Some c => c
  | None => x00
  end.

(** ASCII white space, as [bytes.lstrip()], [int()] and [bytes.fromhex]
    understand it. *)
Definition ascii_isspace (c : N) : bool :=
  ((9 <=? c) && (c <=? 13) || (c =? 32))%N.

(** White space as [str.strip()] understands it. *)
Definition py_isspace (c : codepoint) : bool :=
  ((9 <=? c) && (c <=? 13) || (28 <=? c) && (c <=? 32)
   || (c =? 0x85) || (c =? 0xA0) || (c =? 0x1680)
   || (0x2000 <=? c) && (c <=? 0x200A)
   || (c =? 0x2028) || (c =? 0x2029) || (c =? 0x202F)
   || (c =? 0x205F) || (c =? 0x3000))%N.

Definition bytes_lstrip (x : bytes) : bytes :=
  lstrip_by (fun c => ascii_isspace (Byte.to_N c)) x.

Definition str_strip (x : str) : str := strip_by py_isspace x.

Definition is_cont (c : N) : bool := ((0x80 <=? c) && (c <=? 0xBF))%N.

(** Strict UTF-8, as [bytes.decode()] applies it: no overlong forms, no
    surrogates, nothing above U+10FFFF. *)
Fixpoint utf8_decode (x : list N) : option str :=
  (match x with
   | [] => Some []
   | b0 :: r0 =>
       if b0 <? 0x80 then option_map (cons b0) (utf8_decode r0)
       else if (0xC2 <=? b0) && (b0 <=? 0xDF) then
         match r0 with
         | b1 :: r1 =>
             if is_cont b1
             then option_map (cons ((b0 - 0xC0) * 64 + (b1 - 0x80)))
                             (utf8_decode r1)
             else None
         | _ => None
         end
       else if (0xE0 <=? b0) && (b0 <=? 0xEF) then
         match r0 with
         | b1 :: b2 :: r2 =>
             let lo := if b0 =? 0xE0 then 0xA0 else 0x80 in
             let hi := if b0 =? 0xED then 0x9F else 0xBF in
             if (lo <=? b1) && (b1 <=? hi) && is_cont b2
             then option_map
                    (cons ((b0 - 0xE0) * 4096 + (b1 - 0x80) * 64 + (b2 - 0x80)))
                    (utf8_decode r2)
             else None
         | _ => None
         end
       else if (0xF0 <=? b0) && (b0 <=? 0xF4) then
         match r0 with
         | b1 :: b2 :: b3 :: r3 =>
             let lo := if b0 =? 0xF0 then 0x90 else 0x80 in
             let hi := if b0 =? 0xF4 then 0x8F else 0xBF in
             if (lo <=? b1) && (b1 <=? hi) && is_cont b2 && is_cont b3
             then option_map
                    (cons ((b0 - 0xF0) * 262144 + (b1 - 0x80) * 4096
                           + (b2 - 0x80) * 64 + (b3 - 0x80)))
                    (utf8_decode r3)
             else None
         | _ => None
         end
       else None
   end)%N.

(** [x.decode()] *)
Definition decode (x : bytes) : result str :=
  or_raise UnicodeDecodeError (utf8_decode (map Byte.to_N x)).

Definition utf8_encode_cp (c : codepoint) : option (list N) :=
  (if c <? 0x80 then Some [c]
   else if c <? 0x800 then Some [0xC0 + c / 64; 0x80 + c mod 64]
   else if (0xD800 <=? c) && (c <=? 0xDFFF) then None
   else if c <? 0x10000 then
     Some [0xE0 + c / 4096; 0x80 + (c / 64) mod 64; 0x80 + c mod 64]
   else if c <? 0x110000 then
     Some [0xF0 + c / 262144; 0x80 + (c / 4096) mod 64;
           0x80 + (c / 64) mod 64; 0x80 + c mod 64]
   else None)%N.

Fixpoint utf8_encode (x : str) : option (list N) :=
  match x with
  | [] => Some []
  | c :: x' =>
      match utf8_encode_cp c, utf8_encode x' with
      | Some l, Some r => Some (l ++ r)
      | _, _ => None
      end
  end.

(** [x.encode()] *)
Definition encode (x : str) : result bytes :=
  or_raise UnicodeEncodeError (option_map (map byte_of_N) (utf8_encode x)).

Definition ascii_upper (c : N) : N :=
  (if (97 <=? c) && (c <=? 122) then c - 32 else c)%N.

(** [x.upper()] on [bytes] touches ASCII letters only. *)
Definition bytes_upper (x : bytes) : bytes :=
  map (fun c => byte_of_N (ascii_upper (Byte.to_N c))) x.

(** [x.upper()] on [str] *)
Definition str_upper (rt : Runtime) (x : str) : str :=
  flat_map (fun c => if (c <? 128)%N then [ascii_upper c]
                     else unicode_upper rt c) x.

Definition hex_digit (n : N) : N :=
  (if n <? 10 then 48 + n else 87 + n)%N.

(** [binascii.hexlify(x)]: two lower-case digits per byte. *)
Definition hexlify (x : bytes) : bytes :=
  flat_map (fun c => let n := Byte.to_N c in
                     [byte_of_N (hex_digit (n / 16));
                      byte_of_N (hex_digit (n mod 16))]%N) x.

Definition hex_value (c : codepoint) : option N :=
  (if (48 <=? c) && (c <=? 57) then Some (c - 48)
   else if (65 <=? c) && (c <=? 70) then Some (c - 55)
   else if (97 <=? c) && (c <=? 102) then Some (c - 87)
   else None)%N.

(** [bytes.fromhex(x)]: pairs of hex digits, ASCII white space allowed
    between pairs only. *)
Fixpoint fromhex_aux (x : str) : option (list N) :=
  match x with
  | [] => Some []
  | c :: x' =>
      if ascii_isspace c then fromhex_aux x'
      else match hex_value c, x' with
           | Some hi, d :: x'' =>
               match hex_value d with
               | Some lo => option_map (cons (16 * hi + lo)%N) (fromhex_aux x'')
               | None => None
               end
           | _, _ => None
           end
  end.

Definition fromhex (x : str) : result bytes :=
  or_raise ValueError (option_map (map byte_of_N) (fromhex_aux x)).

(** [int(x)] on a [str].  CPython first maps white space above ASCII to a
    blank and decimal digits of other scripts to ASCII digits, then reads
    blanks, a sign, digits with single underscores between them, blanks. *)
Definition to_ascii_decimal (rt : Runtime) (c : codepoint) : option N :=
  (if c <? 127 then Some c
   else if py_isspace c then Some 32
   else option_map (fun d => 48 + d) (unicode_decimal rt c))%N.

Fixpoint map_option {A B} (f : A -> option B) (l : list A) : option (list B) :=
  match l with
  | [] => Some []
  | a :: l' =>
      match f a, map_option f l' with
      | Some c, Some r => Some (c :: r)
      | _, _ => None
      end
  end.

Definition is_digit (c : N) : bool := ((48 <=? c) && (c <=? 57))%N.

(** Reads on after a digit: value so far, digits so far, text left. *)
Fixpoint scan_digits (x : list N) (acc cnt : N) : option (N * N * list N) :=
  match x with
  | [] => Some (acc, cnt, [])
  | c :: x' =>
      if is_digit c then scan_digits x' (10 * acc + (c - 48))%N (cnt + 1)%N
      else if (c =? 95)%N then
        match x' with
        | d :: x'' =>
            if is_digit d
            then scan_digits x'' (10 * acc + (d - 48))%N (cnt + 1)%N
            else None
        | [] => None
        end
      else Some (acc, cnt, x)
  end.

(** CPython looks at the limit only for numbers of more than 640 digits. *)
Definition over_digit_limit (rt : Runtime) (cnt : N) : bool :=
  ((640 <? cnt) && negb (int_max_str_digits rt =? 0)
   && (int_max_str_digits rt <? cnt))%N.

Definition py_int (rt : Runtime) (x : str) : result Z :=
  match map_option (to_ascii_decimal rt) x with
  | None => inl ValueError
  | Some a =>
      let body := lstrip_by ascii_isspace a in
      let '(negative, body) :=
        match body with
        | 45%N :: r => (true, r)
        | 43%N :: r => (false, r)
        | _ => (false, body)
        end in
      match body with
      | d :: r =>
          if is_digit d then
            match scan_digits r (d - 48)%N 1%N with
            | Some (v, cnt, rest) =>
                match lstrip_by ascii_isspace rest with
                | [] =>
                    if over_digit_limit rt cnt then inl ValueError
                    else inr (if negative then - Z.of_N v else Z.of_N v)
                | _ :: _ => inl ValueError
                end
            | None => inl ValueError
            end
          else inl ValueError
      | [] => inl ValueError
      end
  end.

(** [int(chr(c))] for one byte [c]: below U+0100 the only decimal digits
    are [0] to [9], and a lone blank is no number. *)
Definition int_of_chr (c : byte) : result Z :=
  let n := Byte.to_N c in
  if is_digit n then inr (Z.of_N (n - 48)) else inl ValueError.

(** [str(n)] and ['{}'.format(n)] for an [int]. *)
Definition str_of_int (rt : Runtime) (n : Z) : result str :=
  let digits := s (NilZero.string_of_uint (N.to_uint (Z.abs_N n))) in
  if over_digit_limit rt (N.of_nat (List.length digits)) then inl ValueError
  else inr (if n <? 0 then 45%N :: digits else digits).

(** [dict.get(key)] on a dict literal with [str] keys. *)
Fixpoint dict_get {V} (m : list (str * V)) (key : str) : option V :=
  match m with
  | [] => None
  | (k, v) :: m' => if str_eqb k key then Some v else dict_get m' key
  end.

Fixpoint map_result {A B} (f : A -> result B) (l : list A) : result (list B) :=
  match l with
  | [] => inr []
  | a :: l' =>
      rbind (f a) (fun c => rbind (map_result f l') (fun r => inr (c :: r)))
  end.

Definition CRLF : bytes := [x0d; x0a].

(** ** Device state: the attributes set by [__init__] *)

Inductive Model : Type := SaraN211Module | SaraR4Module.

Module Stats.
Record t : Type := mk { type : str; name : str; value : Z }.
End Stats.

Record Device : Type := {
  model : Model;
  echo : bool;
  ip : option str;
  connected : bool;
  available_messages : list bytes;
  eps_reg_status : option Z;
  radio_signal_power : option Z;
  radio_total_power : option Z;
  radio_tx_power : option Z;
  radio_tx_time : option Z;
  radio_rx_time : option Z;
  radio_cell_id : option Z;
  radio_ecl : option Z;
  radio_snr : option Z;
  radio_earfcn : option Z;
  radio_pci : option Z;
  radio_rsrq : option Z
}.

(** [SaraN211Module(port, echo)] / [SaraR4Module(port, echo)] *)
Definition __init__ (m : Model) (echo : bool) : Device :=
  {| model := m; echo := echo; ip := None; connected := false;
     available_messages := []; eps_reg_status := None;
     radio_signal_power := None;
     radio_total_power := None;
     radio_tx_power := None;
     radio_tx_time := None;
     radio_rx_time := None;
     radio_cell_id := None;
     radio_ecl := None;
     radio_snr := None;
     radio_earfcn := None;
     radio_pci := None;
     radio_rsrq := None |}.

(** Assignment to one attribute: [self.<attribute> = v]. *)

Definition set_ip (v : option str) (d : Device) : Device :=
  {| model := model d; echo := echo d; ip := v; connected := connected d;
     available_messages := available_messages d;
     eps_reg_status := eps_reg_status d;
     radio_signal_power := radio_signal_power d;
     radio_total_power := radio_total_power d;
     radio_tx_power := radio_tx_power d; radio_tx_time := radio_tx_time d;
     radio_rx_time := radio_rx_time d; radio_cell_id := radio_cell_id d;
     radio_ecl := radio_ecl d; radio_snr := radio_snr d;
     radio_earfcn := radio_earfcn d; radio_pci := radio_pci d;
     radio_rsrq := radio_rsrq d |}.

Definition set_connected (v : bool) (d : Device) : Device :=
  {| model := model d; echo := echo d; ip := ip d; connected := v;
     available_messages := available_messages d;
     eps_reg_status := eps_reg_status d;
     radio_signal_power := radio_signal_power d;
     radio_total_power := radio_total_power d;
     radio_tx_power := radio_tx_power d; radio_tx_time := radio_tx_time d;
     radio_rx_time := radio_rx_time d; radio_cell_id := radio_cell_id d;
     radio_ecl := radio_ecl d; radio_snr := radio_snr d;
     radio_earfcn := radio_earfcn d; radio_pci := radio_pci d;
     radio_rsrq := radio_rsrq d |}.

Definition set_available_messages (v : list bytes) (d : Device) : Device :=
  {| model := model d; echo := echo d; ip := ip d; connected := connected d;
     available_messages := v; eps_reg_status := eps_reg_status d;
     radio_signal_power := radio_signal_power d;
     radio_total_power := radio_total_power d;
     radio_tx_power := radio_tx_power d; radio_tx_time := radio_tx_time d;
     radio_rx_time := radio_rx_time d; radio_cell_id := radio_cell_id d;
     radio_ecl := radio_ecl d; radio_snr := radio_snr d;
     radio_earfcn := radio_earfcn d; radio_pci := radio_pci d;
     radio_rsrq := radio_rsrq d |}.

Definition set_eps_reg_status (v : option Z) (d : Device) : Device :=
  {| model := model d; echo := echo d; ip := ip d; connected := connected d;
     available_messages := available_messages d; eps_reg_status := v;
     radio_signal_power := radio_signal_power d;
     radio_total_power := radio_total_power d;
     radio_tx_power := radio_tx_power d; radio_tx_time := radio_tx_time d;
     radio_rx_time := radio_rx_time d; radio_cell_id := radio_cell_id d;
     radio_ecl := radio_ecl d; radio_snr := radio_snr d;
     radio_earfcn := radio_earfcn d; radio_pci := radio_pci d;
     radio_rsrq := radio_rsrq d |}.

Definition set_radio_signal_power (v : option Z) (d : Device) : Device :=
  {| model := model d; echo := echo d; ip := ip d; connected := connected d;
     available_messages := available_messages d;
     eps_reg_status := eps_reg_status d; radio_signal_power := v;
     radio_total_power := radio_total_power d;
     radio_tx_power := radio_tx_power d; radio_tx_time := radio_tx_time d;
     radio_rx_time := radio_rx_time d; radio_cell_id := radio_cell_id d;
     radio_ecl := radio_ecl d; radio_snr := radio_snr d;
     radio_earfcn := radio_earfcn d; radio_pci := radio_pci d;
     radio_rsrq := radio_rsrq d |}.

Definition set_radio_total_power (v : option Z) (d : Device) : Device :=
  {| model := model d; echo := echo d; ip := ip d; connected := connected d;
     available_messages := available_messages d;
     eps_reg_status := eps_reg_status d;
     radio_signal_power := radio_signal_power d; radio_total_power := v;
     radio_tx_power := radio_tx_power d; radio_tx_time := radio_tx_time d;
     radio_rx_time := radio_rx_time d; radio_cell_id := radio_cell_id d;
     radio_ecl := radio_ecl d; radio_snr := radio_snr d;
     radio_earfcn := radio_earfcn d; radio_pci := radio_pci d;
     radio_rsrq := radio_rsrq d |}.

Definition set_radio_tx_power (v : option Z) (d : Device) : Device :=
  {| model := model d; echo := echo d; ip := ip d; connected := connected d;
     available_messages := available_messages d;
     eps_reg_status := eps_reg_status d;
     radio_signal_power := radio_signal_power d;
     radio_total_power := radio_total_power d; radio_tx_power := v;
     radio_tx_time := radio_tx_time d; radio_rx_time := radio_rx_time d;
     radio_cell_id := radio_cell_id d; radio_ecl := radio_ecl d;
     radio_snr := radio_snr d; radio_earfcn := radio_earfcn d;
     radio_pci := radio_pci d; radio_rsrq := radio_rsrq d |}.

Definition set_radio_tx_time (v : option Z) (d : Device) : Device :=
  {| model := model d; echo := echo d; ip := ip d; connected := connected d;
     available_messages := available_messages d;
     eps_reg_status := eps_reg_status d;
     radio_signal_power := radio_signal_power d;
     radio_total_power := radio_total_power d;
     radio_tx_power := radio_tx_power d; radio_tx_time := v;
     radio_rx_time := radio_rx_time d; radio_cell_id := radio_cell_id d;
     radio_ecl := radio_ecl d; radio_snr := radio_snr d;
     radio_earfcn := radio_earfcn d; radio_pci := radio_pci d;
     radio_rsrq := radio_rsrq d |}.

Definition set_radio_rx_time (v : option Z) (d : Device) : Device :=
  {| model := model d; echo := echo d; ip := ip d; connected := connected d;
     available_messages := available_messages d;
     eps_reg_status := eps_reg_status d;
     radio_signal_power := radio_signal_power d;
     radio_total_power := radio_total_power d;
     radio_tx_power := radio_tx_power d; radio_tx_time := radio_tx_time d;
     radio_rx_time := v; radio_cell_id := radio_cell_id d;
     radio_ecl := radio_ecl d; radio_snr := radio_snr d;
     radio_earfcn := radio_earfcn d; radio_pci := radio_pci d;
     radio_rsrq := radio_rsrq d |}.

Definition set_radio_cell_id (v : option Z) (d : Device) : Device :=
  {| model := model d; echo := echo d; ip := ip d; connected := connected d;
     available_messages := available_messages d;
     eps_reg_status := eps_reg_status d;
     radio_signal_power := radio_signal_power d;
     radio_total_power := radio_total_power d;
     radio_tx_power := radio_tx_power d; radio_tx_time := radio_tx_time d;
     radio_rx_time := radio_rx_time d; radio_cell_id := v;
     radio_ecl := radio_ecl d; radio_snr := radio_snr d;
     radio_earfcn := radio_earfcn d; radio_pci := radio_pci d;
     radio_rsrq := radio_rsrq d |}.

Definition set_radio_ecl (v : option Z) (d : Device) : Device :=
  {| model := model d; echo := echo d; ip := ip d; connected := connected d;
     available_messages := available_messages d;
     eps_reg_status := eps_reg_status d;
     radio_signal_power := radio_signal_power d;
     radio_total_power := radio_total_power d;
     radio_tx_power := radio_tx_power d; radio_tx_time := radio_tx_time d;
     radio_rx_time := radio_rx_time d; radio_cell_id := radio_cell_id d;
     radio_ecl := v; radio_snr := radio_snr d;
     radio_earfcn := radio_earfcn d; radio_pci := radio_pci d;
     radio_rsrq := radio_rsrq d |}.

Definition set_radio_snr (v : option Z) (d : Device) : Device :=
  {| model := model d; echo := echo d; ip := ip d; connected := connected d;
     available_messages := available_messages d;
     eps_reg_status := eps_reg_status d;
     radio_signal_power := radio_signal_power d;
     radio_total_power := radio_total_power d;
     radio_tx_power := radio_tx_power d; radio_tx_time := radio_tx_time d;
     radio_rx_time := radio_rx_time d; radio_cell_id := radio_cell_id d;
     radio_ecl := radio_ecl d; radio_snr := v;
     radio_earfcn := radio_earfcn d; radio_pci := radio_pci d;
     radio_rsrq := radio_rsrq d |}.

Definition set_radio_earfcn (v : option Z) (d : Device) : Device :=
  {| model := model d; echo := echo d; ip := ip d; connected := connected d;
     available_messages := available_messages d;
     eps_reg_status := eps_reg_status d;
     radio_signal_power := radio_signal_power d;
     radio_total_power := radio_total_power d;
     radio_tx_power := radio_tx_power d; radio_tx_time := radio_tx_time d;
     radio_rx_time := radio_rx_time d; radio_cell_id := radio_cell_id d;
     radio_ecl := radio_ecl d; radio_snr := radio_snr d; radio_earfcn := v;
     radio_pci := radio_pci d; radio_rsrq := radio_rsrq d |}.

Definition set_radio_pci (v : option Z) (d : Device) : Device :=
  {| model := model d; echo := echo d; ip := ip d; connected := connected d;
     available_messages := available_messages d;
     eps_reg_status := eps_reg_status d;
     radio_signal_power := radio_signal_power d;
     radio_total_power := radio_total_power d;
     radio_tx_power := radio_tx_power d; radio_tx_time := radio_tx_time d;
     radio_rx_time := radio_rx_time d; radio_cell_id := radio_cell_id d;
     radio_ecl := radio_ecl d; radio_snr := radio_snr d;
     radio_earfcn := radio_earfcn d; radio_pci := v;
     radio_rsrq := radio_rsrq d |}.

Definition set_radio_rsrq (v : option Z) (d : Device) : Device :=
  {| model := model d; echo := echo d; ip := ip d; connected := connected d;
     available_messages := available_messages d;
     eps_reg_status := eps_reg_status d;
     radio_signal_power := radio_signal_power d;
     radio_total_power := radio_total_power d;
     radio_tx_power := radio_tx_power d; radio_tx_time := radio_tx_time d;
     radio_rx_time := radio_rx_time d; radio_cell_id := radio_cell_id d;
     radio_ecl := radio_ecl d; radio_snr := radio_snr d;
     radio_earfcn := radio_earfcn d; radio_pci := radio_pci d;
     radio_rsrq := v |}.

(** ** Notification handlers

    A handler reads the raw line and either raises or returns the device
    with one attribute replaced. *)

Definition _handle_cme_error (urc : bytes) (d : Device) : result Device :=
  rbind (decode urc) (fun text => inl (CMEError text)).

Definition _add_available_message_callback (urc : bytes) (d : Device)
  : result Device :=
  match split Byte.eqb ":"%byte urc with
  | [_urc; data] =>
      let result := bytes_lstrip data in
      inr (set_available_messages (available_messages d ++ [result]) d)
  | _ => inl ValueError
  end.

(** [urc[-1]] of a [bytes] value is already an [int], so [int(...)] leaves
    it alone and [bool(...)] asks whether the byte is non-zero. *)
Definition _update_connection_status_callback (urc : bytes) (d : Device)
  : result Device :=
  rbind (last_item urc) (fun c =>
    let status := negb (Byte.to_N c =? 0)%N in
    inr (set_connected status d)).

Definition _update_eps_reg_status_callback (urc : bytes) (d : Device)
  : result Device :=
  rbind (last_item urc) (fun c =>
  rbind (int_of_chr c) (fun status =>
    inr (set_eps_reg_status (Some status) d))).

Definition _update_ip_address_callback (urc : bytes) (d : Device)
  : result Device :=
  rbind (decode urc) (fun _urc =>
    let ip_addr := slice _urc (Some (find N.eqb 34%N _urc + 1)) (Some (-1)) in
    inr (set_ip (Some ip_addr) d)).

Definition callbackmap : list (str * (bytes -> Device -> result Device)) :=
  [ (s "CSCON", _update_connection_status_callback);
    (s "CEREG", _update_eps_reg_status_callback);
    (s "CGPADDR", _update_ip_address_callback);
    (s "NSONMI", _add_available_message_callback);
    (s "CME ERROR", _handle_cme_error) ].

Definition _process_urc (urc : bytes) (d : Device) : result Device :=
  rbind (decode urc) (fun _urc =>
    let urc_id := slice _urc (Some 1) (Some (find N.eqb 58%N _urc)) in
    match dict_get callbackmap urc_id with
    | Some callback => callback urc d
    | None => inr d
    end).

(** ** The module on its serial line

    [rx] holds the lines the port will still deliver, oldest first, each as
    [readline()] returns it; once it is empty [readline()] runs into its
    timeout and returns [b''].  [tx] logs every [write].  [now] is the wall
    clock in seconds; only [time.sleep] moves it, reading and writing take
    no time. *)

Record Sys : Type := {
  dev : Device;
  rx : list bytes;
  tx : list bytes;
  now : Z
}.

Definition set_dev (d : Device) (σ : Sys) : Sys :=
  {| dev := d; rx := rx σ; tx := tx σ; now := now σ |}.
Definition set_rx (l : list bytes) (σ : Sys) : Sys :=
  {| dev := dev σ; rx := l; tx := tx σ; now := now σ |}.
Definition set_tx (l : list bytes) (σ : Sys) : Sys :=
  {| dev := dev σ; rx := rx σ; tx := l; now := now σ |}.
Definition set_now (t : Z) (σ : Sys) : Sys :=
  {| dev := dev σ; rx := rx σ; tx := tx σ; now := t |}.

(** How a call ends: it returns, it raises, it never comes back because the
    read loop spins on a silent line, or the model ran out of fuel. *)
Inductive outcome (A : Type) : Type :=
| Ok (a : A) (σ : Sys)
| Raise (e : exn) (σ : Sys)
| Hang (σ : Sys)
| OutOfFuel.
Arguments Ok {A} a σ.
Arguments Raise {A} e σ.
Arguments Hang {A} σ.
Arguments OutOfFuel {A}.

Definition M (A : Type) : Type := Sys -> outcome A.

Definition ret {A} (a : A) : M A := fun σ => Ok a σ.
Definition raise {A} (e : exn) : M A := fun σ => Raise e σ.
Definition bind {A B} (m : M A) (k : A -> M B) : M B :=
  fun σ =>
    match m σ with
    | Ok a σ' => k a σ'
    | Raise e σ' => Raise e σ'
    | Hang σ' => Hang σ'
    | OutOfFuel => OutOfFuel
    end.

Declare Scope m_scope.
Delimit Scope m_scope with m.
Notation "x <- c ;; k" := (bind c (fun x => k))
  (at level 61, c at next level, right associativity) : m_scope.
Notation "c ;;; k" := (bind c (fun _ => k))
  (at level 61, right associativity) : m_scope.
Local Open Scope m_scope.

Definition pure {A} (r : result A) : M A :=
  fun σ => match r with inl e => Raise e σ | inr a => Ok a σ end.

Definition gets {A} (f : Device -> A) : M A := fun σ => Ok (f (dev σ)) σ.


(** [self._serial.readline()] *)
Definition readline : M bytes :=
  fun σ => match rx σ with
           | [] => Ok [] σ
           | line :: rest => Ok line (set_rx rest σ)
           end.

(** [self._serial.write(data)] *)
Definition serial_write (data : bytes) : M unit :=
  fun σ => Ok tt (set_tx (tx σ ++ [data]) σ).

(** [time.time()] and [time.sleep(d)] *)
Definition time : M Z := fun σ => Ok (now σ) σ.
Definition sleep (d : Z) : M unit := fun σ => Ok tt (set_now (now σ + d) σ).

(** ** Transaction engine *)

Definition _write (data : str) : M unit :=
  data_to_send <- pure (encode data) ;;
  let data_to_send :=
    if endswith Byte.eqb CRLF data_to_send then data_to_send
    else data_to_send ++ CRLF in
  serial_write data_to_send ;;;
  ack <- readline ;;
  echo_on <- gets echo ;;
  let ack :=
    if echo_on
    then slice ack (Some (Z.of_nat (List.length data) + 1)) None
    else ack in
  if bytes_eqb ack CRLF then ret tt else raise ValueError.

Definition _remove_line_ending (line : bytes) : bytes :=
  if endswith Byte.eqb CRLF line then slice line None (Some (-2)) else line.

(** The [while True] of [_read_line_until_contains].  [pending] is [rx] of
    the state it is called in; every turn takes one line off it.  On a
    silent line every further [readline()] is [b''], which ends the loop
    only if the empty needle was asked for.  [data_list] and [clean_list]
    feed the debug log only and are left out. *)
Fixpoint read_loop (_slice : bytes) (pending : list bytes)
    (irc_list : list bytes) (σ : Sys) : outcome (list bytes) :=
  match pending with
  | [] =>
      if contains Byte.eqb _slice [] then Ok irc_list σ else Hang σ
  | raw :: rest =>
      let σ := set_rx rest σ in
      let line := _remove_line_ending raw in
      let next irc_list σ :=
        if contains Byte.eqb _slice line then Ok irc_list σ
        else read_loop _slice rest irc_list σ in
      if startswith Byte.eqb (b "+") line then
        match _process_urc line (dev σ) with
        | inl e => Raise e σ
        | inr d => next irc_list (set_dev d σ)
        end
      else if bytes_eqb line (b "OK") then next irc_list σ
      else if startswith Byte.eqb (b "ERROR") line then Raise ATError σ
      else if bytes_eqb line [] then next irc_list σ
      else next (irc_list ++ [line]) σ
  end.

(** Every caller passes a [str], which is encoded first. *)
Definition _read_line_until_contains (slice : str) : M (list bytes) :=
  _slice <- pure (encode slice) ;;
  fun σ => read_loop _slice (rx σ) [] σ.

Definition _at_action (at_command : str) : M (list bytes) :=
  _write at_command ;;;
  irc <- _read_line_until_contains (s "OK") ;;
  ret irc.

(** ** UDP send and receive *)

(** One double quote, U+0022 *)
Definition q : str := [34%N].

Definition AT_SEND_TO : str := s "AT+NSOST=0".

(** [SaraN211Module.send_udp_data] and its override in [SaraR4Module];
    they differ in the command prefix only. *)
Definition send_udp_data (rt : Runtime) (host : str) (port : Z) (data : str)
  : M (list bytes) :=
  encoded <- pure (encode data) ;;
  _data <- pure (decode (bytes_upper (hexlify encoded))) ;;
  let length := Z.of_nat (List.length data) in
  port_text <- pure (str_of_int rt port) ;;
  length_text <- pure (str_of_int rt length) ;;
  m <- gets model ;;
  let atc :=
    (match m with
     | SaraN211Module => AT_SEND_TO
     | SaraR4Module => s "AT+USOST=0"
     end)
    ++ s "," ++ q ++ host ++ q ++ s "," ++ port_text ++ s ","
    ++ length_text ++ s "," ++ q ++ _data ++ q in
  result <- _at_action atc ;;
  ret result.

Definition _parse_udp_response (message : bytes) : result bytes :=
  let _message := remove_all Byte.eqb x22 message in
  match split Byte.eqb ","%byte _message with
  | [socket; ip; port; length; _data; remaining_bytes] =>
      rbind (decode _data) fromhex
  | _ => inl ValueError
  end.

(** [self.available_messages.pop(0)] *)
Definition pop_available_message : M bytes :=
  fun σ =>
    match available_messages (dev σ) with
    | [] => Raise IndexError σ
    | m :: rest => Ok m (set_dev (set_available_messages rest (dev σ)) σ)
    end.

Definition receive_udp_data : M bytes :=
  _read_line_until_contains (s "+NSONMI") ;;;
  message_info <- pop_available_message ;;
  socket_and_length <- pure (decode message_info) ;;
  message <- _at_action (s "AT+NSORF=" ++ socket_and_length) ;;
  first <- pure (item message 0) ;;
  response <- pure (_parse_udp_response first) ;;
  ret response.

(** ** Radio statistics *)

Definition _parse_radio_stats_string (rt : Runtime) (stats_byte_string : bytes)
  : result (option Stats.t) :=
  rbind (decode stats_byte_string) (fun text =>
  let parts := split N.eqb 58%N text in
  rbind (item parts 0) (fun part0 =>
  let irc := str_strip part0 in
  rbind (item parts 1) (fun part1 =>
  let data := remove_all N.eqb 34%N (str_strip part1) in
  let data_parts := split N.eqb 44%N data in
  if str_eqb irc (s "NUESTATS") then
    rbind (item data_parts 0) (fun type =>
    rbind (item data_parts 1) (fun name =>
    rbind (item data_parts 2) (fun value_text =>
    rbind (py_int rt value_text) (fun value =>
    inr (Some (Stats.mk type name value))))))
  else inr None))).

(** One turn of the [for stat in stats] loop. *)
Definition fold_stat (d : Device) (stat : option Stats.t) : Device :=
  match stat with
  | None => d
  | Some st =>
      let radio name :=
        str_eqb (Stats.type st) (s "RADIO") && str_eqb (Stats.name st) name in
      let v := Some (Stats.value st) in
      if radio (s "Signal power") then set_radio_signal_power v d
      else if radio (s "Total power") then set_radio_total_power v d
      else if radio (s "TX power") then set_radio_tx_power v d
      else if radio (s "TX time") then set_radio_tx_time v d
      else if radio (s "RX time") then set_radio_rx_time v d
      else if radio (s "Cell ID") then set_radio_cell_id v d
      else if radio (s "ECL") then set_radio_ecl v d
      else if radio (s "SNR") then set_radio_snr v d
      else if radio (s "EARFCN") then set_radio_earfcn v d
      else if radio (s "PCI") then set_radio_pci v d
      else if radio (s "RSRQ") then set_radio_rsrq v d
      else d
  end.

(** The list comprehension parses every line before the first record is
    folded, so one line that raises leaves the device untouched. *)
Definition _parse_radio_stats (rt : Runtime) (irc_buffer : list bytes)
    (d : Device) : result Device :=
  rbind (map_result (_parse_radio_stats_string rt) irc_buffer) (fun stats =>
  inr (fold_left fold_stat stats d)).



(** ** Connecting *)

(** What a caller may pass as [operator]: [None], an [int] or a [str]. *)
Inductive operator_arg : Type :=
| OpNone
| OpInt (operator_id : Z)
| OpStr (name : str).

(** [if operator:] *)
Definition truthy (operator : operator_arg) : bool :=
  match operator with
  | OpNone => false
  | OpInt n => negb (n =? 0)
  | OpStr name => negb (str_eqb name [])
  end.

(** [operator.upper()]: only a [str] has the method. *)
Definition upper (rt : Runtime) (operator : operator_arg) : M str :=
  match operator with
  | OpStr name => ret (str_upper rt name)
  | OpNone | OpInt _ => raise AttributeError
  end.

Definition OPERATOR_MAP : list (str * Z) :=
  [ (s "TELIA", 24001); (s "TRE", 24002) ].

Definition eq_status (status : option Z) (code : Z) : bool :=
  match status with
  | Some v => v =? code
  | None => false
  end.

(** [SaraN211Module._await_connection]: waits for the registration URC. *)
Definition _await_connection_N211 (rt : Runtime) (operator : operator_arg)
  : M unit :=
  name <- upper rt operator ;;
  if str_eqb name (s "TELIA") then
    _read_line_until_contains (s "CEREG: 5") ;;; ret tt
  else
    name <- upper rt operator ;;
    if str_eqb name (s "TRE") then
      _read_line_until_contains (s "CEREG: 1") ;;; ret tt
    else raise ValueError.

(** The [while True] of [SaraR4Module._await_connection]; one unit of fuel
    per turn. *)
Fixpoint poll_loop (rt : Runtime) (fuel : nat) (operator : operator_arg)
    (timeout start_time : Z) : M unit :=
  match fuel with
  | O => fun _ => OutOfFuel
  | S fuel' =>
      sleep 2 ;;;
      _at_action (s "AT+CEREG?") ;;;
      status <- gets eps_reg_status ;;
      if eq_status status 0 then
        poll_loop rt fuel' operator timeout start_time
      else
        registered <-
          (name <- upper rt operator ;;
           if str_eqb name (s "TELIA") then ret (eq_status status 5)
           else
             name <- upper rt operator ;;
             if str_eqb name (s "TRE") then ret (eq_status status 1)
             else raise ValueError) ;;
        if registered : bool then ret tt
        else
          t <- time ;;
          let elapsed_time := t - start_time in
          if elapsed_time >? timeout then raise ConnectionTimeoutError
          else poll_loop rt fuel' operator timeout start_time
  end.

(** [SaraR4Module._await_connection].  A turn that does not raise takes at
    least the acknowledgement off [rx], so one unit of fuel per pending
    line, and one more, is never used up. *)
Definition _await_connection_R4 (rt : Runtime) (operator : operator_arg)
    (timeout : Z) : M unit :=
  start_time <- time ;;
  fun σ => poll_loop rt (S (List.length (rx σ))) operator timeout start_time σ.

(** [self._await_connection(operator=operator)], resolved on the class. *)
Definition _await_connection (rt : Runtime) (operator : operator_arg)
  : M unit :=
  m <- gets model ;;
  match m with
  | SaraN211Module => _await_connection_N211 rt operator
  | SaraR4Module => _await_connection_R4 rt operator 180
  end.

Definition connect (rt : Runtime) (operator : operator_arg) : M unit :=
  at_command <-
    (if truthy operator then
       operator_id <-
         match operator with
         | OpInt n => ret n
         | _ =>
             name <- upper rt operator ;;
             match dict_get OPERATOR_MAP name with
             | Some operator_id => ret operator_id
             | None => raise ValueError
             end
         end ;;
       id_text <- pure (str_of_int rt operator_id) ;;
       ret (s "AT+COPS=1,2," ++ q ++ id_text ++ q)
     else ret (s "AT+COPS=0")) ;;
  _at_action at_command ;;;
  _await_connection rt operator.

(** ** Configuration commands *)

Definition AT_ENABLE_NETWORK_REGISTRATION : str := s "AT+CEREG=1".
Definition AT_ENABLE_SIGNALING_CONNECTION_URC : str := s "AT+CSCON=1".
Definition AT_ENABLE_POWER_SAVING_MODE : str := s "AT+NPSMR=1".
Definition AT_ENABLE_ALL_RADIO_FUNCTIONS : str := s "AT+CFUN=1".

Definition enable_psm_mode : M unit :=
  _at_action AT_ENABLE_POWER_SAVING_MODE ;;; ret tt.

Definition enable_signaling_connection_urc : M unit :=
  _at_action AT_ENABLE_SIGNALING_CONNECTION_URC ;;; ret tt.

Definition enable_network_registration : M unit :=
  _at_action AT_ENABLE_NETWORK_REGISTRATION ;;; ret tt.

Definition enable_radio_functions : M unit :=
  _at_action AT_ENABLE_ALL_RADIO_FUNCTIONS ;;; ret tt.

(** [SaraN211Module.setup] *)
Definition setup_N211 : M unit :=
  enable_signaling_connection_urc ;;;
  enable_network_registration ;;;
  enable_psm_mode ;;;
  enable_radio_functions.

(** [SaraN211Module.create_socket] *)
Definition create_socket_N211 (rt : Runtime) (port : Z) : M unit :=
  port_text <- pure (str_of_int rt port) ;;
  let at_c := s "AT+NSOCR=" ++ q ++ s "DGRAM" ++ q ++ s ",17," ++ port_text in
  _at_action at_c ;;; ret tt.

Definition AT_CREATE_UDP_SOCKET : str := s "AT+USOCR=17".
Definition AT_CREATE_TCP_SOCKET : str := s "AT+USOCR=6".

(** [SaraR4Module.create_socket]; [port] is [None] or an [int], and
    [if port:] takes [0] for no port. *)
Definition create_socket_R4 (rt : Runtime) (socket_type : str)
    (port : option Z) : M (list bytes) :=
  at_command <-
    (if str_eqb (str_upper rt socket_type) (s "UDP")
     then ret AT_CREATE_UDP_SOCKET
     else if str_eqb (str_upper rt socket_type) (s "TCP")
     then ret AT_CREATE_TCP_SOCKET
     else raise ValueError) ;;
  at_command <-
    match port with
    | Some p =>
        if negb (p =? 0) then
          port_text <- pure (str_of_int rt p) ;;
          ret (at_command ++ s "," ++ port_text)
        else ret at_command
    | None => ret at_command
    end ;;
  result <- _at_action at_command ;;
  ret result.

(** [SaraR4Module.set_data_format] and [set_error_format] *)
Definition set_data_format : M unit := _at_action (s "AT+UDCONF=1,1") ;;; ret tt.
Definition set_error_format : M unit := _at_action (s "AT+CMEE=2") ;;; ret tt.

(** [SaraR4Module.set_pdp_context] *)
Definition set_pdp_context (rt : Runtime) (apn pdp_type : str) (cid : Z)
  : M unit :=
  cid_text <- pure (str_of_int rt cid) ;;
  let _at_command :=
    s "AT+CGDCONT=" ++ cid_text ++ s "," ++ q ++ pdp_type ++ q ++ s ","
    ++ q ++ apn ++ q in
  _at_action _at_command ;;; ret tt.

Definition DEFAULT_BANDS : list Z := [20].

(** The [for band in bands_to_set] loop of [set_band_mask];
    [1 << (band - 1)] raises [ValueError] on a negative shift count. *)
Fixpoint band_mask_loop (bands_to_set : list Z) (total_band_mask : Z)
  : result Z :=
  match bands_to_set with
  | [] => inr total_band_mask
  | band :: rest =>
      if band - 1 <? 0 then inl ValueError
      else
        let individual_band_mask := Z.shiftl 1 (band - 1) in
        band_mask_loop rest (Z.lor total_band_mask individual_band_mask)
  end.

(** [SaraR4Module.set_band_mask]; [if bands:] sends [None] and the empty
    list to the default. *)
Definition set_band_mask (rt : Runtime) (bands : option (list Z)) : M unit :=
  let bands_to_set :=
    match bands with
    | Some ((_ :: _) as given) => given
    | _ => DEFAULT_BANDS
    end in
  total_band_mask <- pure (band_mask_loop bands_to_set 0) ;;
  mask_text <- pure (str_of_int rt total_band_mask) ;;
  _at_action (s "AT+UBANDMASK=1," ++ mask_text ++ s "," ++ mask_text) ;;;
  ret tt.

(** ** Vocabulary of the statements *)

(** Did the call come back with a value? *)
Definition returns {A} (o : outcome A) : bool :=
  match o with
  | Ok _ _ => true
  | _ => false
  end.

(** A raw line that the read loop neither dispatches as a notification nor
    takes for an error. *)
Definition plain (raw : bytes) : bool :=
  let line := _remove_line_ending raw in
  negb (startswith Byte.eqb (b "+") line)
  && negb (startswith Byte.eqb (b "ERROR") line).

(** A plain line that does not hold the needle: the loop reads on. *)
Definition passes (needle : bytes) (raw : bytes) : bool :=
  plain raw && negb (contains Byte.eqb needle (_remove_line_ending raw)).

(** What the [if]/[elif] chain of the read loop appends to [irc_list]:
    every plain line but [b'OK'] and [b'']. *)
Definition kept (line : bytes) : bool :=
  negb (bytes_eqb line (b "OK")) && negb (bytes_eqb line []).

Definition collected (raws : list bytes) : list bytes :=
  filter kept (map _remove_line_ending raws).

(** The fields [_parse_udp_response] unpacks: quotes removed, split on
    commas. *)
Definition response_fields (message : bytes) : list bytes :=
  split Byte.eqb ","%byte (remove_all Byte.eqb x22 message).

(** Did the model, not the code, give up? *)
Definition out_of_fuel {A} (o : outcome A) : bool :=
  match o with
  | OutOfFuel => true
  | _ => false
  end.

(** *** The transaction as the specification words it

    These two definitions follow sections 4.1 and 4.2 of the specification,
    not the code; they are what the code is compared with. *)





(** *** Sample traffic *)

Definition line (text : string) : bytes := b text ++ CRLF.
Arguments line text%_string.

Definition fresh_N211 : Device := __init__ SaraN211Module false.
Definition fresh_R4 : Device := __init__ SaraR4Module true.

Definition on_line (d : Device) (incoming : list bytes) : Sys :=
  {| dev := d; rx := incoming; tx := []; now := 0 |}.

(** The R4 module echoes the query, then reports "not registered". *)
Definition CEREG_QUERY : bytes := line "AT+CEREG?".
Definition not_registered_reply : list bytes :=
  [ b "AT+CEREG?" ++ [x0d] ++ CRLF; line "+CEREG: 0,0"; line "OK" ].

Fixpoint unregistered_polls (n : nat) : list bytes :=
  match n with
  | O => []
  | S n' => not_registered_reply ++ unregistered_polls n'
  end.

Definition SIGNAL_POWER_LINE : bytes :=
  b "NUESTATS: " ++ [x22] ++ b "RADIO" ++ [x22] ++ b "," ++ [x22]
    ++ b "Signal power" ++ [x22] ++ b ",-682".

Definition TOTAL_POWER_LINE : bytes :=
  b "NUESTATS: " ++ [x22] ++ b "RADIO" ++ [x22] ++ b "," ++ [x22]
    ++ b "Total power" ++ [x22] ++ b ",-600".

(** A datagram is announced, fetched with [AT+NSORF] and delivered. *)
Definition DATAGRAM_REPLY : bytes :=
  b "0," ++ [x22] ++ b "10.0.0.1" ++ [x22] ++ b ",5683,5," ++ [x22]
    ++ b "68656C6C6F" ++ [x22] ++ b ",0" ++ CRLF.

Definition datagram_traffic : list bytes :=
  [ line "+NSONMI:0,5"; CRLF; DATAGRAM_REPLY; line "OK" ].

Definition ECHOED_QUERY : bytes :=
  b "AT+NUESTATS=" ++ [x22] ++ b "RADIO" ++ [x22].

(** *** Further vocabulary *)

(** The last branch of the read loop's [if]/[elif] chain: the line goes
    to [irc_list]. *)
Definition result_line (line : bytes) : bool :=
  negb (startswith Byte.eqb (b "+") line)
  && negb (bytes_eqb line (b "OK"))
  && negb (startswith Byte.eqb (b "ERROR") line)
  && negb (bytes_eqb line []).

(** What [_write] puts on the wire for the encoded command. *)
Definition framed (data_to_send : bytes) : bytes :=
  if endswith Byte.eqb CRLF data_to_send then data_to_send
  else data_to_send ++ CRLF.

(** The state a call ends in, when it ends. *)
Definition final_state {A} (o : outcome A) : option Sys :=
  match o with
  | Ok _ σ | Raise _ σ | Hang σ => Some σ
  | OutOfFuel => None
  end.

Definition free_of (c : byte) (x : bytes) : bool :=
  forallb (fun a => negb (Byte.eqb a c)) x.

Definition text_free_of (c : codepoint) (x : str) : bool :=
  forallb (fun a => negb (N.eqb a c)) x.

(** The operators [_await_connection] knows. *)
Definition supported (rt : Runtime) (operator : operator_arg) : bool :=
  match operator with
  | OpStr name =>
      str_eqb (str_upper rt name) (s "TELIA")
      || str_eqb (str_upper rt name) (s "TRE")
  | OpNone | OpInt _ => false
  end.

(** A reply that ends a transaction quietly: the acknowledgement, lines
    the loop passes over, [OK]. *)
Definition quiet_reply (body : list bytes) : list bytes :=
  CRLF :: body ++ [line "OK"].

(** The R4 module echoes the query and reports "registered, roaming". *)
Definition registered_reply : list bytes :=
  [ b "AT+CEREG?" ++ [x0d] ++ CRLF; line "+CEREG: 0,5"; line "OK" ].

(** * Properties *)

(** Case analysis on every test and every pure call in the goal. *)
Ltac split_ifs :=
  repeat match goal with
         | |- context [if ?c then _ else _] => destruct c
         | |- context [match ?r with inl _ => _ | inr _ => _ end] => destruct r
         end.

(** ** Sequences and built-ins *)



(** ** The read loop *)

Lemma read_loop_forgets_rx needle raw rest acc σ pending :
  read_loop needle (raw :: rest) acc (set_rx pending σ)
  = read_loop needle (raw :: rest) acc σ.
Proof. reflexivity. Qed.

Lemma collected_cons r pre :
  collected (r :: pre)
  = if kept (_remove_line_ending r)
    then _remove_line_ending r :: collected pre
    else collected pre.
Proof. reflexivity. Qed.

Lemma read_loop_pass needle r pending acc σ :
  passes needle r = true ->
  read_loop needle (r :: pending) acc σ
  = read_loop needle pending
      (if kept (_remove_line_ending r)
       then acc ++ [_remove_line_ending r] else acc)
      (set_rx pending σ).
Proof.
  unfold passes, plain, kept. intros Hr.
  apply andb_true_iff in Hr as [Hr Hn].
  apply andb_true_iff in Hr as [Hplus Herr].
  apply negb_true_iff in Hplus, Herr, Hn.
  cbn [read_loop]. cbv zeta. rewrite Hplus, Herr, Hn.
  destruct (bytes_eqb (_remove_line_ending r) (b "OK"));
    [|destruct (bytes_eqb (_remove_line_ending r) [])]; reflexivity.
Qed.

(** Over lines that pass, the loop only collects. *)
Lemma read_loop_passes needle pre raw rest :
  Forall (fun r => passes needle r = true) pre ->
  forall acc σ,
    read_loop needle (pre ++ raw :: rest) acc σ
    = read_loop needle (raw :: rest) (acc ++ collected pre) σ.
Proof.
  induction 1 as [|r pre Hr _ IH]; intros acc σ.
  - cbn [app collected map filter]. now rewrite app_nil_r.
  - rewrite <- app_comm_cons, (read_loop_pass _ _ _ _ _ Hr), IH.
    rewrite read_loop_forgets_rx, collected_cons.
    destruct (kept (_remove_line_ending r)); [|reflexivity].
    now rewrite <- app_assoc.
Qed.

Lemma bind_ret {A} (m : M A) σ : bind m ret σ = m σ.
Proof. unfold bind, ret. now destruct (m σ). Qed.

Lemma encode_OK : encode (s "OK") = inr (b "OK").
Proof. reflexivity. Qed.

(** Once the command is written and acknowledged, the transaction is the
    read loop on what the line delivers next. *)
Lemma _at_action_after_write at_command σ σ1 :
  _write at_command σ = Ok tt σ1 ->
  _at_action at_command σ = read_loop (b "OK") (rx σ1) [] σ1.
Proof.
  intros Hw. unfold _at_action.
  unfold bind at 1. rewrite Hw. rewrite bind_ret.
  unfold _read_line_until_contains, bind, pure. now rewrite encode_OK.
Qed.


Lemma read_loop_last needle raw rest acc σ :
  plain raw = true ->
  contains Byte.eqb needle (_remove_line_ending raw) = true ->
  read_loop needle (raw :: rest) acc σ
  = Ok (acc ++ collected [raw]) (set_rx rest σ).
Proof.
  unfold plain. intros Hp Hn.
  apply andb_true_iff in Hp as [Hplus Herr].
  apply negb_true_iff in Hplus, Herr.
  cbn [read_loop]. cbv zeta. rewrite Hplus, Herr, Hn.
  rewrite collected_cons. unfold kept.
  destruct (bytes_eqb (_remove_line_ending raw) (b "OK"));
    [|destruct (bytes_eqb (_remove_line_ending raw) [])];
    cbn [negb andb collected map filter]; now rewrite ?app_nil_r.
Qed.


(** ** Transactions *)






(** ** Notifications *)

Lemma connection_status_callback_nonzero_byte urc c d :
  last_item urc = inr c ->
  (Byte.to_N c =? 0)%N = false ->
  _update_connection_status_callback urc d = inr (set_connected true d).
Proof.
  intros Hlast Hc. unfold _update_connection_status_callback.
  rewrite Hlast. cbn [rbind]. now rewrite Hc.
Qed.

(** C2.  The connection-status handler tests the last byte itself, not the
    digit it spells: the notification [+CSCON: 0] sets the connected flag
    to [True], just as [+CSCON: 1] does. *)
Theorem connection_status_zero_sets_connected_true :
  forall d,
    _process_urc (b "+CSCON: 0") d = inr (set_connected true d)
    /\ _process_urc (b "+CSCON: 1") d = inr (set_connected true d).
Proof. intros d. split; reflexivity. Qed.

(** ** Radio statistics *)



(** C4.  A stray line without a colon is no "no record": the parser takes
    [parts[1]] before it looks at the tag, so the line raises [IndexError]
    and the records after it are never folded. *)
Theorem stray_line_without_colon_raises_IndexError :
  forall rt d,
    _parse_radio_stats_string rt ECHOED_QUERY = inl IndexError
    /\ _parse_radio_stats rt [ECHOED_QUERY; SIGNAL_POWER_LINE] d
       = inl IndexError.
Proof. intros rt d. split; reflexivity. Qed.

(** Assigning the signal power leaves every other attribute as it was. *)
Lemma set_radio_signal_power_frame v d :
  let d' := set_radio_signal_power v d in
  radio_signal_power d' = v
  /\ model d' = model d /\ echo d' = echo d /\ ip d' = ip d
  /\ connected d' = connected d
  /\ available_messages d' = available_messages d
  /\ eps_reg_status d' = eps_reg_status d
  /\ radio_total_power d' = radio_total_power d
  /\ radio_tx_power d' = radio_tx_power d
  /\ radio_tx_time d' = radio_tx_time d
  /\ radio_rx_time d' = radio_rx_time d
  /\ radio_cell_id d' = radio_cell_id d
  /\ radio_ecl d' = radio_ecl d /\ radio_snr d' = radio_snr d
  /\ radio_earfcn d' = radio_earfcn d /\ radio_pci d' = radio_pci d
  /\ radio_rsrq d' = radio_rsrq d.
Proof. repeat split. Qed.



(** ** UDP send *)

(** C8.  The length argument is [len(data)], the number of characters:
    for the one-character payload U+00E9 the command carries the two bytes
    [C3A9] and the length [1], on the N211 and on the R4 alike. *)
Theorem send_udp_length_counts_characters :
  forall rt,
    encode [233%N] = inr [xc3; xa9]
    /\ send_udp_data rt (s "10.0.0.1") 5683 [233%N]
         (on_line fresh_N211 [CRLF; line "OK"])
       = Ok []
           {| dev := fresh_N211; rx := [];
              tx := [ b "AT+NSOST=0," ++ [x22] ++ b "10.0.0.1" ++ [x22]
                      ++ b ",5683,1," ++ [x22] ++ b "C3A9" ++ [x22] ++ CRLF ];
              now := 0 |}
    /\ send_udp_data rt (s "10.0.0.1") 5683 [233%N]
         (on_line fresh_R4
            [ b "AT+USOST=0," ++ [x22] ++ b "10.0.0.1" ++ [x22]
              ++ b ",5683,1," ++ [x22] ++ b "C3A9" ++ [x22] ++ [x0d] ++ CRLF;
              line "OK" ])
       = Ok []
           {| dev := fresh_R4; rx := [];
              tx := [ b "AT+USOST=0," ++ [x22] ++ b "10.0.0.1" ++ [x22]
                      ++ b ",5683,1," ++ [x22] ++ b "C3A9" ++ [x22] ++ CRLF ];
              now := 0 |}.
Proof. intros rt. repeat split; reflexivity. Qed.

(** ** Connecting *)



(** ** UDP receive *)

Lemma parse_udp_response_by_fields message :
  _parse_udp_response message
  = if (List.length (response_fields message) =? 6)%nat
    then rbind (decode (nth 4 (response_fields message) [])) fromhex
    else inl ValueError.
Proof.
  unfold _parse_udp_response. fold (response_fields message).
  destruct (response_fields message) as [|f1 [|f2 [|f3 [|f4 [|f5 [|f6 [|f7 l]]]]]]];
    reflexivity.
Qed.

(** C10.  Once the datagram has been announced and fetched, the result of
    [receive_udp_data] is decided by the first line of the reply: with its
    quotes removed and split on commas it must give exactly six fields, and
    then the fifth, read as hex, is the result; any other number of fields
    raises [ValueError], and an empty reply raises [IndexError]. *)
Theorem receive_udp_data_needs_six_fields :
  forall σ irc σ1 message_info σ2 arg message σ3,
    _read_line_until_contains (s "+NSONMI") σ = Ok irc σ1 ->
    pop_available_message σ1 = Ok message_info σ2 ->
    decode message_info = inr arg ->
    _at_action (s "AT+NSORF=" ++ arg) σ2 = Ok message σ3 ->
    receive_udp_data σ
    = match message with
      | [] => Raise IndexError σ3
      | first :: _ =>
          if (List.length (response_fields first) =? 6)%nat
          then pure (rbind (decode (nth 4 (response_fields first) [])) fromhex) σ3
          else Raise ValueError σ3
      end.
Proof.
  intros σ irc σ1 message_info σ2 arg message σ3 Hwait Hpop Harg Hfetch.
  unfold receive_udp_data.
  unfold bind at 1. rewrite Hwait.
  unfold bind at 1. rewrite Hpop.
  unfold bind at 1. rewrite Harg. cbn [pure].
  unfold bind at 1. rewrite Hfetch.
  destruct message as [|first more].
  - reflexivity.
  - unfold bind at 1. cbn [item nth_error or_raise pure].
    rewrite bind_ret, parse_udp_response_by_fields.
    now destruct (List.length (response_fields first) =? 6)%nat.
Qed.

Lemma receive_udp_data_needs_six_fields_witness :
  receive_udp_data (on_line fresh_N211 datagram_traffic)
  = Ok (b "hello")
       {| dev := fresh_N211; rx := []; tx := [line "AT+NSORF=0,5"]; now := 0 |}.
Proof.
  apply (receive_udp_data_needs_six_fields
           (on_line fresh_N211 datagram_traffic)
           []
           {| dev := set_available_messages [b "0,5"] fresh_N211;
              rx := [CRLF; DATAGRAM_REPLY; line "OK"]; tx := []; now := 0 |}
           (b "0,5")
           {| dev := fresh_N211;
              rx := [CRLF; DATAGRAM_REPLY; line "OK"]; tx := []; now := 0 |}
           (s "0,5")
           [b "0," ++ [x22] ++ b "10.0.0.1" ++ [x22] ++ b ",5683,5," ++ [x22]
              ++ b "68656C6C6F" ++ [x22] ++ b ",0"]
           {| dev := fresh_N211; rx := []; tx := [line "AT+NSORF=0,5"];
              now := 0 |});
    reflexivity.
Defined.

(** ** Awaiting registration *)

Lemma bind_never_returns {A B} (m : M A) (k : A -> M B) σ :
  (forall a σ', returns (k a σ') = false) ->
  returns (bind m k σ) = false.
Proof. intros Hk. unfold bind. destruct (m σ); auto. Qed.

Lemma poll_loop_unfold rt fuel operator timeout start_time :
  poll_loop rt (S fuel) operator timeout start_time
  = (sleep 2 ;;;
     _at_action (s "AT+CEREG?") ;;;
     status <- gets eps_reg_status ;;
     if eq_status status 0 then
       poll_loop rt fuel operator timeout start_time
     else
       registered <-
         (name <- upper rt operator ;;
          if str_eqb name (s "TELIA") then ret (eq_status status 5)
          else
            name <- upper rt operator ;;
            if str_eqb name (s "TRE") then ret (eq_status status 1)
            else raise ValueError) ;;
       if registered : bool then ret tt
       else
         t <- time ;;
         let elapsed_time := t - start_time in
         if elapsed_time >? timeout then raise ConnectionTimeoutError
         else poll_loop rt fuel operator timeout start_time).
Proof. reflexivity. Qed.

(** *** The fuel of the polling loop is never used up *)

Lemma slice_nil {A} lo hi : @slice A [] lo hi = [].
Proof. unfold slice. now rewrite skipn_nil, firstn_nil. Qed.

Lemma _write_takes_one_line data σ σ1 :
  _write data σ = Ok tt σ1 ->
  List.length (rx σ) = S (List.length (rx σ1)).
Proof.
  destruct σ as [d incoming sent t].
  unfold _write, bind, pure, serial_write, readline, gets, ret, raise.
  destruct (encode data) as [e|encoded]; [discriminate|].
  unfold set_tx; cbn [dev rx tx now].
  destruct incoming as [|ack rest]; unfold set_rx; cbn [dev rx tx now].
  - rewrite slice_nil. destruct (echo d); cbn; discriminate.
  - match goal with |- context [bytes_eqb ?x CRLF] => destruct (bytes_eqb x CRLF) end;
      [|discriminate].
    intros H. injection H as <-. reflexivity.
Qed.

Lemma _write_has_fuel data σ : out_of_fuel (_write data σ) = false.
Proof.
  destruct σ as [d incoming sent t].
  unfold _write, bind, pure, serial_write, readline, gets, ret, raise.
  destruct (encode data) as [e|encoded]; [reflexivity|].
  unfold set_tx; cbn [dev rx tx now].
  destruct incoming as [|ack rest]; unfold set_rx; cbn [dev rx tx now];
    match goal with |- context [bytes_eqb ?x CRLF] => destruct (bytes_eqb x CRLF) end;
    reflexivity.
Qed.

Lemma read_loop_takes_lines needle :
  forall pending acc σ r σ',
    rx σ = pending ->
    read_loop needle pending acc σ = Ok r σ' ->
    (List.length (rx σ') <= List.length pending)%nat.
Proof.
  induction pending as [|raw rest IH]; intros acc σ r σ' Hrx.
  - cbn [read_loop]. split_ifs; [|discriminate].
    intros H. injection H as _ <-. now rewrite Hrx.
  - cbn [read_loop]. cbv zeta.
    split_ifs; try discriminate;
      try (intros H; injection H as _ <-; cbn; lia);
      intros H; (apply IH in H; [cbn [List.length]; lia | reflexivity]).
Qed.

Lemma read_loop_has_fuel needle :
  forall pending acc σ, out_of_fuel (read_loop needle pending acc σ) = false.
Proof.
  induction pending as [|raw rest IH]; intros acc σ.
  - cbn [read_loop]. now split_ifs.
  - cbn [read_loop]. cbv zeta. split_ifs; try reflexivity; apply IH.
Qed.

Lemma _read_line_until_contains_has_fuel needle σ :
  out_of_fuel (_read_line_until_contains needle σ) = false.
Proof.
  unfold _read_line_until_contains, bind, pure.
  destruct (encode needle); [reflexivity|]. apply read_loop_has_fuel.
Qed.

Lemma _at_action_takes_lines at_command σ r σ' :
  _at_action at_command σ = Ok r σ' ->
  (List.length (rx σ') < List.length (rx σ))%nat.
Proof.
  unfold _at_action. unfold bind at 1.
  destruct (_write at_command σ) as [[] σ1| | |] eqn:Hw; try discriminate.
  rewrite bind_ret. unfold _read_line_until_contains, bind, pure.
  rewrite encode_OK. intros H.
  apply read_loop_takes_lines in H; [|reflexivity].
  apply _write_takes_one_line in Hw. lia.
Qed.

Lemma _at_action_has_fuel at_command σ :
  out_of_fuel (_at_action at_command σ) = false.
Proof.
  unfold _at_action. unfold bind at 1.
  pose proof (_write_has_fuel at_command σ) as Hw.
  destruct (_write at_command σ) as [[] σ1| | |]; try reflexivity;
    [|discriminate].
  rewrite bind_ret. apply _read_line_until_contains_has_fuel.
Qed.

Lemma poll_loop_has_fuel rt operator timeout start_time :
  forall fuel σ,
    (List.length (rx σ) < fuel)%nat ->
    out_of_fuel (poll_loop rt fuel operator timeout start_time σ) = false.
Proof.
  induction fuel as [|fuel IH]; intros σ Hfuel; [lia|].
  rewrite poll_loop_unfold.
  unfold bind at 1. cbn [sleep].
  unfold bind at 1.
  pose proof (_at_action_has_fuel (s "AT+CEREG?") (set_now (now σ + 2) σ)) as Hf.
  destruct (_at_action (s "AT+CEREG?") (set_now (now σ + 2) σ))
    as [r σ1| | |] eqn:Ha; try reflexivity; [|discriminate].
  apply _at_action_takes_lines in Ha. cbn [set_now rx] in Ha.
  assert (Hk : (List.length (rx σ1) < fuel)%nat) by lia.
  unfold bind, gets, upper, ret, raise, time.
  destruct operator; split_ifs; try reflexivity; now apply IH.
Qed.

(** With the fuel [_await_connection_R4] hands out, every outcome is one
    of the code. *)
Lemma _await_connection_R4_has_fuel rt operator timeout σ :
  out_of_fuel (_await_connection_R4 rt operator timeout σ) = false.
Proof.
  unfold _await_connection_R4, bind, time.
  apply poll_loop_has_fuel. lia.
Qed.

Lemma connect_has_fuel rt operator σ :
  out_of_fuel (connect rt operator σ) = false.
Proof.
  unfold connect. unfold bind at 1.
  match goal with |- context [match ?c σ with _ => _ end] =>
    assert (Hc : out_of_fuel (c σ) = false);
      [|destruct (c σ) as [at_command σ1| | |]; try reflexivity; [|discriminate]]
  end.
  { unfold bind, upper, ret, raise, pure.
    destruct operator; cbn [truthy]; split_ifs; try reflexivity;
      repeat match goal with
             | |- context [match ?o with Some _ => _ | None => _ end] => destruct o
             end; split_ifs; reflexivity. }
  unfold bind at 1.
  pose proof (_at_action_has_fuel at_command σ1) as Hf.
  destruct (_at_action at_command σ1) as [r σ2| | |]; try reflexivity;
    [|discriminate].
  unfold _await_connection, bind, gets.
  destruct (model (dev σ2)).
  - unfold _await_connection_N211, bind, upper, ret, raise.
    destruct operator; try reflexivity.
    split_ifs;
      match goal with
      | |- context [_read_line_until_contains ?n ?x] =>
          pose proof (_read_line_until_contains_has_fuel n x) as Hr;
          destruct (_read_line_until_contains n x)
      | _ => idtac
      end; try reflexivity; discriminate.
  - apply _await_connection_R4_has_fuel.
Qed.

(** An [int] has no [upper()]: the polling loop never comes back. *)
Lemma poll_loop_operator_code_never_returns rt n timeout start_time :
  forall fuel σ,
    returns (poll_loop rt fuel (OpInt n) timeout start_time σ) = false.
Proof.
  induction fuel as [|fuel IH]; intros σ; [reflexivity|].
  rewrite poll_loop_unfold.
  apply bind_never_returns; intros _ σ1.
  apply bind_never_returns; intros _ σ2.
  apply bind_never_returns; intros status σ3.
  destruct (eq_status status 0); [apply IH|].
  reflexivity.
Qed.

Lemma await_connection_operator_code_never_returns rt n σ :
  returns (_await_connection rt (OpInt n) σ) = false.
Proof.
  unfold _await_connection.
  apply bind_never_returns; intros m σ1.
  destruct m.
  - reflexivity.
  - unfold _await_connection_R4.
    apply bind_never_returns; intros t σ2.
    apply poll_loop_operator_code_never_returns.
Qed.

(** C7.  [connect] with an operator code never completes, on either
    class and whatever the line delivers, and not for want of fuel: the
    command is built and sent, but [_await_connection] calls [upper()] on
    the [int].  On an N211 module that answers [OK] the call ends in
    [AttributeError]. *)
Theorem connect_with_operator_code_never_returns :
  (forall rt n σ,
      returns (connect rt (OpInt n) σ) = false
      /\ out_of_fuel (connect rt (OpInt n) σ) = false)
  /\ connect ascii_runtime (OpInt 24001) (on_line fresh_N211 [CRLF; line "OK"])
     = Raise AttributeError
         {| dev := fresh_N211; rx := [];
            tx := [ b "AT+COPS=1,2," ++ [x22] ++ b "24001" ++ [x22] ++ CRLF ];
            now := 0 |}.
Proof.
  split; [|reflexivity].
  intros rt n σ. split; [|apply connect_has_fuel]. unfold connect.
  apply bind_never_returns; intros at_command σ1.
  apply bind_never_returns; intros _ σ2.
  apply await_connection_operator_code_never_returns.
Qed.

Lemma cereg_query_unanswered d tx0 t :
  _at_action (s "AT+CEREG?") {| dev := d; rx := []; tx := tx0; now := t |}
  = Raise ValueError
      {| dev := d; rx := []; tx := tx0 ++ [CEREG_QUERY]; now := t |}.
Proof. destruct d as [m e]. destruct e; reflexivity. Qed.

Lemma cereg_query_not_registered d rest tx0 t :
  echo d = true ->
  _at_action (s "AT+CEREG?")
    {| dev := d; rx := not_registered_reply ++ rest; tx := tx0; now := t |}
  = Ok []
      {| dev := set_eps_reg_status (Some 0) d; rx := rest;
         tx := tx0 ++ [CEREG_QUERY]; now := t |}.
Proof. destruct d as [m e]. cbn [echo]. intros ->. reflexivity. Qed.

Lemma poll_loop_unregistered rt timeout start_time :
  forall n fuel d tx0 t0,
    (n < fuel)%nat ->
    echo d = true ->
    poll_loop rt fuel (OpStr (s "TELIA")) timeout start_time
      {| dev := d; rx := unregistered_polls n; tx := tx0; now := t0 |}
    = Raise ValueError
        {| dev := match n with
                  | O => d
                  | S _ => set_eps_reg_status (Some 0) d
                  end;
           rx := [];
           tx := tx0 ++ repeat CEREG_QUERY (S n);
           now := t0 + 2 * Z.of_nat (S n) |}.
Proof.
  induction n as [|n IH]; intros fuel d tx0 t0 Hfuel Hecho;
    (destruct fuel as [|fuel]; [lia|]); rewrite poll_loop_unfold.
  - unfold bind at 1. cbn [sleep unregistered_polls].
    unfold set_now. cbn [dev rx tx now].
    unfold bind at 1. rewrite cereg_query_unanswered.
    reflexivity.
  - unfold bind at 1. cbn [sleep unregistered_polls].
    unfold set_now. cbn [dev rx tx now].
    unfold bind at 1. rewrite (cereg_query_not_registered _ _ _ _ Hecho).
    unfold bind at 1. cbn [gets dev].
    replace (eps_reg_status (set_eps_reg_status (Some 0) d)) with (Some 0)
      by reflexivity.
    cbn [eq_status Z.eqb].
    rewrite IH by (try lia; exact Hecho).
    f_equal. f_equal.
    + now destruct n.
    + rewrite <- app_assoc. reflexivity.
    + lia.
Qed.

Lemma length_unregistered_polls n :
  List.length (unregistered_polls n) = (3 * n)%nat.
Proof.
  induction n as [|n IH]; [reflexivity|].
  cbn [unregistered_polls]. rewrite length_app, IH. cbn [not_registered_reply List.length]. lia.
Qed.

(** C1.  While the module reports registration status [0], the loop goes
    round through [continue] and never looks at the clock: after [n]
    answered polls, whatever the timeout, it sends poll [n + 1], and only
    the silence of the line ends it, [2 * (n + 1)] seconds in, with the
    [ValueError] of the missing acknowledgement, never with
    [ConnectionTimeoutError]. *)
Theorem polling_never_times_out_while_status_is_zero :
  forall rt timeout n,
    _await_connection_R4 rt (OpStr (s "TELIA")) timeout
      (on_line fresh_R4 (unregistered_polls n))
    = Raise ValueError
        {| dev := match n with
                  | O => fresh_R4
                  | S _ => set_eps_reg_status (Some 0) fresh_R4
                  end;
           rx := [];
           tx := repeat CEREG_QUERY (S n);
           now := 2 * Z.of_nat (S n) |}.
Proof.
  intros rt timeout n. unfold _await_connection_R4, on_line.
  unfold bind, time. cbn [now rx].
  rewrite poll_loop_unregistered.
  - reflexivity.
  - rewrite length_unregistered_polls. lia.
  - reflexivity.
Qed.

(** The clock is consulted once the status is neither [0] nor the target:
    a module that keeps searching (status [2]) is given up on after the
    second poll of a three-second wait. *)
Lemma polling_times_out_while_searching :
  _await_connection_R4 ascii_runtime (OpStr (s "TELIA")) 3
    (on_line fresh_R4
       [ b "AT+CEREG?" ++ [x0d] ++ CRLF; line "+CEREG: 0,2"; line "OK";
         b "AT+CEREG?" ++ [x0d] ++ CRLF; line "+CEREG: 0,2"; line "OK";
         b "AT+CEREG?" ++ [x0d] ++ CRLF; line "+CEREG: 0,5"; line "OK" ])
  = Raise ConnectionTimeoutError
      {| dev := set_eps_reg_status (Some 2) fresh_R4;
         rx := [ b "AT+CEREG?" ++ [x0d] ++ CRLF; line "+CEREG: 0,5"; line "OK" ];
         tx := [CEREG_QUERY; CEREG_QUERY];
         now := 4 |}.
Proof. reflexivity. Qed.

(** Status [0], [0], then [5]: registered with TELIA on the third poll. *)
Lemma polling_connects_on_third_poll :
  _await_connection_R4 ascii_runtime (OpStr (s "TELIA")) 180
    (on_line fresh_R4
       (unregistered_polls 2
        ++ [ b "AT+CEREG?" ++ [x0d] ++ CRLF; line "+CEREG: 0,5"; line "OK" ]))
  = Ok tt
      {| dev := set_eps_reg_status (Some 5) fresh_R4;
         rx := [];
         tx := [CEREG_QUERY; CEREG_QUERY; CEREG_QUERY];
         now := 6 |}.
Proof. reflexivity. Qed.

(** * Further properties of the driver *)

(** ** Lines and their terminator *)

Lemma byte_eqb_refl c : Byte.eqb c c = true.
Proof. now apply byte_dec_lb. Qed.

Lemma startswith_app (p x : bytes) : startswith Byte.eqb p (p ++ x) = true.
Proof.
  induction p as [|a p IH]; [reflexivity|].
  cbn [app startswith]. now rewrite byte_eqb_refl, IH.
Qed.

Lemma endswith_app (p x : bytes) : endswith Byte.eqb p (x ++ p) = true.
Proof. unfold endswith. rewrite rev_app_distr. apply startswith_app. Qed.

Lemma firstn_length_app {A} (x y : list A) :
  firstn (List.length x) (x ++ y) = x.
Proof. induction x as [|a x IH]; [reflexivity|]. cbn. now rewrite IH. Qed.

Lemma skipn_length_app {A} (x y : list A) :
  skipn (List.length x) (x ++ y) = y.
Proof. induction x as [|a x IH]; [reflexivity|]. exact IH. Qed.

(** X1.  [_remove_line_ending] takes exactly one terminator off a line
    that ends with one, whatever the line holds before it. *)
Theorem remove_line_ending_strips_one_terminator :
  forall body : bytes, _remove_line_ending (body ++ CRLF) = body.
Proof.
  intros body. unfold _remove_line_ending.
  rewrite endswith_app. unfold slice, clamp.
  rewrite length_app. cbn [List.length CRLF].
  replace (Z.of_nat (List.length body + 2)) with (Z.of_nat (List.length body) + 2)
    by lia.
  cbn [Z.ltb Z.compare].
  replace (Z.max 0 (-2 + (Z.of_nat (List.length body) + 2)) - 0)
    with (Z.of_nat (List.length body)) by lia.
  rewrite Nat2Z.id. cbn [Z.to_nat skipn]. apply firstn_length_app.
Qed.

(** ** Hex payloads *)

Lemma byte_of_N_to_N c : byte_of_N (Byte.to_N c) = c.
Proof. destruct c; reflexivity. Qed.

Lemma hexlify_cons c x :
  bytes_upper (hexlify (c :: x))
  = bytes_upper (hexlify [c]) ++ bytes_upper (hexlify x).
Proof.
  unfold bytes_upper, hexlify. cbn [flat_map]. rewrite app_nil_r.
  now rewrite map_app.
Qed.

Lemma utf8_decode_hex_pair c rest :
  utf8_decode (map Byte.to_N (bytes_upper (hexlify [c])) ++ rest)
  = option_map (app (map Byte.to_N (bytes_upper (hexlify [c]))))
               (utf8_decode rest).
Proof. destruct c; cbn; now destruct (utf8_decode rest). Qed.

Lemma fromhex_aux_hex_pair c rest :
  fromhex_aux (map Byte.to_N (bytes_upper (hexlify [c])) ++ rest)
  = option_map (cons (Byte.to_N c)) (fromhex_aux rest).
Proof. destruct c; reflexivity. Qed.

Lemma decode_hex x :
  decode (bytes_upper (hexlify x))
  = inr (map Byte.to_N (bytes_upper (hexlify x))).
Proof.
  unfold decode. induction x as [|c x IH]; [reflexivity|].
  rewrite hexlify_cons, map_app, utf8_decode_hex_pair.
  destruct (utf8_decode (map Byte.to_N (bytes_upper (hexlify x))));
    [|discriminate].
  cbn in IH. injection IH as ->. reflexivity.
Qed.

Lemma fromhex_hex x :
  fromhex (map Byte.to_N (bytes_upper (hexlify x))) = inr x.
Proof.
  unfold fromhex.
  assert (H : fromhex_aux (map Byte.to_N (bytes_upper (hexlify x)))
              = Some (map Byte.to_N x)).
  { induction x as [|c x IH]; [reflexivity|].
    rewrite hexlify_cons, map_app, fromhex_aux_hex_pair, IH. reflexivity. }
  rewrite H. cbn [option_map or_raise]. rewrite map_map.
  f_equal. rewrite <- (map_id x) at 2. apply map_ext. apply byte_of_N_to_N.
Qed.

(** X2.  What [send_udp_data] makes of a payload, [bytes.fromhex] in
    [_parse_udp_response] turns back into the same bytes. *)
Theorem hex_payload_round_trip :
  forall payload : bytes,
    rbind (decode (bytes_upper (hexlify payload))) fromhex = inr payload.
Proof.
  intros payload. rewrite decode_hex. cbn [rbind]. apply fromhex_hex.
Qed.

(** ** The reply of [AT+NSORF] *)

Lemma remove_all_app (c : byte) x y :
  remove_all Byte.eqb c (x ++ y)
  = remove_all Byte.eqb c x ++ remove_all Byte.eqb c y.
Proof. apply filter_app. Qed.

Lemma free_of_remove_all c c' x :
  free_of c x = true -> free_of c (remove_all Byte.eqb c' x) = true.
Proof.
  unfold free_of, remove_all. induction x as [|a x IH]; [reflexivity|].
  cbn [forallb filter]. intros H. apply andb_true_iff in H as [Ha Hx].
  destruct (negb (Byte.eqb a c')); [cbn [forallb]; rewrite Ha|]; auto.
Qed.

Lemma split_free c p rest :
  free_of c p = true ->
  split Byte.eqb c (p ++ c :: rest) = p :: split Byte.eqb c rest.
Proof.
  unfold free_of. induction p as [|a p IH]; intros H.
  - cbn [app split]. now rewrite byte_eqb_refl.
  - cbn [forallb] in H. apply andb_true_iff in H as [Ha Hp].
    apply negb_true_iff in Ha.
    cbn [app split]. now rewrite Ha, (IH Hp).
Qed.

Lemma split_free_last c p :
  free_of c p = true -> split Byte.eqb c p = [p].
Proof.
  unfold free_of. induction p as [|a p IH]; intros H; [reflexivity|].
  cbn [forallb] in H. apply andb_true_iff in H as [Ha Hp].
  apply negb_true_iff in Ha.
  cbn [split]. now rewrite Ha, (IH Hp).
Qed.

Lemma hex_free_of_comma x : free_of x2c (bytes_upper (hexlify x)) = true.
Proof.
  induction x as [|c x IH]; [reflexivity|].
  rewrite hexlify_cons. unfold free_of in *. rewrite forallb_app, IH.
  destruct c; reflexivity.
Qed.

Lemma hex_without_quotes x :
  remove_all Byte.eqb x22 (bytes_upper (hexlify x)) = bytes_upper (hexlify x).
Proof.
  induction x as [|c x IH]; [reflexivity|].
  rewrite hexlify_cons, remove_all_app, IH. f_equal.
  destruct c; reflexivity.
Qed.

Lemma parse_udp_response_of_fields :
  forall socket ip port length remaining payload : bytes,
    free_of x2c socket = true ->
    free_of x2c ip = true ->
    free_of x2c port = true ->
    free_of x2c length = true ->
    free_of x2c remaining = true ->
    _parse_udp_response
      (socket ++ b "," ++ ip ++ b "," ++ port ++ b "," ++ length ++ b ","
       ++ [x22] ++ bytes_upper (hexlify payload) ++ [x22] ++ b ","
       ++ remaining)
    = inr payload.
Proof.
  intros socket ip port length remaining payload Hs Hi Hp Hl Hr.
  unfold _parse_udp_response. change (b ",") with [x2c].
  rewrite !remove_all_app, hex_without_quotes.
  change (remove_all Byte.eqb x22 [x2c]) with [x2c].
  change (remove_all Byte.eqb x22 [x22]) with (@nil byte).
  cbn [app].
  rewrite (split_free _ _ _ (free_of_remove_all _ x22 _ Hs)).
  rewrite (split_free _ _ _ (free_of_remove_all _ x22 _ Hi)).
  rewrite (split_free _ _ _ (free_of_remove_all _ x22 _ Hp)).
  rewrite (split_free _ _ _ (free_of_remove_all _ x22 _ Hl)).
  rewrite (split_free _ _ _ (hex_free_of_comma payload)).
  rewrite (split_free_last _ _ (free_of_remove_all _ x22 _ Hr)).
  rewrite decode_hex. cbn [rbind]. apply fromhex_hex.
Qed.

(** X3.  A reply line of six comma-separated fields, quoted or not, whose
    fifth field is the hex text of a payload, parses to that payload;
    the other fields only must not hold a comma. *)
Theorem parse_udp_response_returns_payload :
  forall socket ip port length remaining payload : bytes,
    free_of x2c socket = true ->
    free_of x2c ip = true ->
    free_of x2c port = true ->
    free_of x2c length = true ->
    free_of x2c remaining = true ->
    _parse_udp_response
      (socket ++ b "," ++ ip ++ b "," ++ port ++ b "," ++ length ++ b ","
       ++ [x22] ++ bytes_upper (hexlify payload) ++ [x22] ++ b ","
       ++ remaining)
    = inr payload.
Proof. exact parse_udp_response_of_fields. Qed.

Lemma parse_udp_response_returns_payload_witness :
  _parse_udp_response
    (b "0," ++ [x22] ++ b "10.0.0.1" ++ [x22] ++ b ",5683,5," ++ [x22]
     ++ b "68656C6C6F" ++ [x22] ++ b ",0")
  = inr (b "hello").
Proof.
  apply (parse_udp_response_returns_payload
           (b "0") ([x22] ++ b "10.0.0.1" ++ [x22]) (b "5683") (b "5")
           (b "0") (b "hello")); reflexivity.
Defined.

(** ** What a successful transaction has read *)

Lemma _write_ok_inv data σ σ1 :
  _write data σ = Ok tt σ1 ->
  exists encoded ack,
    encode data = inr encoded
    /\ rx σ = ack :: rx σ1
    /\ tx σ1 = tx σ ++ [framed encoded]
    /\ dev σ1 = dev σ
    /\ now σ1 = now σ.
Proof.
  destruct σ as [d incoming sent t].
  unfold _write, bind, pure, serial_write, readline, gets, ret, raise.
  destruct (encode data) as [e|encoded]; [discriminate|].
  unfold set_tx; cbn [dev rx tx now].
  destruct incoming as [|ack rest]; unfold set_rx; cbn [dev rx tx now].
  - rewrite slice_nil. destruct (echo d); cbn; discriminate.
  - match goal with |- context [bytes_eqb ?x CRLF] => destruct (bytes_eqb x CRLF) end;
      [|discriminate].
    intros H. injection H as <-. exists encoded, ack. now repeat split.
Qed.

Lemma read_loop_ok_inv needle :
  contains Byte.eqb needle [] = false ->
  forall pending acc σ r σ',
    read_loop needle pending acc σ = Ok r σ' ->
    exists pre last,
      pending = pre ++ last :: rx σ'
      /\ Forall (fun raw =>
                   contains Byte.eqb needle (_remove_line_ending raw) = false) pre
      /\ contains Byte.eqb needle (_remove_line_ending last) = true
      /\ r = acc ++ filter result_line (map _remove_line_ending (pre ++ [last]))
      /\ tx σ' = tx σ
      /\ now σ' = now σ.
Proof.
  intros Hneedle.
  induction pending as [|raw rest IH]; intros acc σ r σ'.
  - cbn [read_loop]. rewrite Hneedle. discriminate.
  - cbn [read_loop]. cbv zeta.
    assert (Hstop : forall acc' σ1,
               rx σ1 = rest -> tx σ1 = tx σ -> now σ1 = now σ ->
               acc' = acc ++ filter result_line [_remove_line_ending raw] ->
               (if contains Byte.eqb needle (_remove_line_ending raw)
                then Ok acc' σ1 else read_loop needle rest acc' σ1) = Ok r σ' ->
               exists pre last,
                 raw :: rest = pre ++ last :: rx σ'
                 /\ Forall (fun raw =>
                      contains Byte.eqb needle (_remove_line_ending raw) = false) pre
                 /\ contains Byte.eqb needle (_remove_line_ending last) = true
                 /\ r = acc ++ filter result_line
                                 (map _remove_line_ending (pre ++ [last]))
                 /\ tx σ' = tx σ /\ now σ' = now σ).
    { intros acc' σ1 Hrx Htx Hnow Hacc.
      destruct (contains Byte.eqb needle (_remove_line_ending raw)) eqn:Hc.
      - intros H. injection H as <- <-.
        exists [], raw. cbn [app map]. rewrite Hrx. now repeat split.
      - intros H. apply IH in H as (pre & last & Hp & Hall & Hlast & Hr & Ht & Hn).
        exists (raw :: pre), last. rewrite <- app_comm_cons, <- Hp.
        repeat split; [now constructor | exact Hlast | | congruence | congruence].
        rewrite Hr, Hacc. cbn [map filter app].
        destruct (result_line (_remove_line_ending raw));
          now rewrite <- ?app_assoc, ?app_nil_r. }
    unfold result_line in Hstop. cbn [filter] in Hstop.
    destruct (startswith Byte.eqb (b "+") (_remove_line_ending raw)).
    { destruct (_process_urc (_remove_line_ending raw) (dev (set_rx rest σ)));
        [discriminate|].
      apply Hstop; try reflexivity. cbn [negb andb]. now rewrite app_nil_r. }
    destruct (bytes_eqb (_remove_line_ending raw) (b "OK")).
    { apply Hstop; try reflexivity. cbn [negb andb]. now rewrite app_nil_r. }
    destruct (startswith Byte.eqb (b "ERROR") (_remove_line_ending raw));
      [discriminate|].
    destruct (bytes_eqb (_remove_line_ending raw) []).
    { apply Hstop; try reflexivity. cbn [negb andb]. now rewrite app_nil_r. }
    apply Hstop; reflexivity.
Qed.

(** X4.  When [_at_action] returns, the line has delivered an
    acknowledgement and then lines of which the last is the first to
    contain [OK]; the result is, in order, those of them that are neither
    notifications nor empty nor [OK]; everything after stays on the line,
    one frame has been written and the clock has not moved. *)
Theorem at_action_result_is_the_result_lines_read :
  forall at_command σ r σ',
    _at_action at_command σ = Ok r σ' ->
    exists ack pre last,
      rx σ = ack :: pre ++ last :: rx σ'
      /\ Forall (fun raw =>
                   contains Byte.eqb (b "OK") (_remove_line_ending raw) = false)
                pre
      /\ contains Byte.eqb (b "OK") (_remove_line_ending last) = true
      /\ r = filter result_line (map _remove_line_ending (pre ++ [last]))
      /\ (exists encoded,
             encode at_command = inr encoded
             /\ tx σ' = tx σ ++ [framed encoded])
      /\ now σ' = now σ.
Proof.
  intros at_command σ r σ' H.
  unfold _at_action in H. unfold bind at 1 in H.
  destruct (_write at_command σ) as [[] σ1| | |] eqn:Hw; try discriminate.
  rewrite bind_ret in H. unfold _read_line_until_contains, bind, pure in H.
  rewrite encode_OK in H.
  apply _write_ok_inv in Hw as (encoded & ack & He & Hrx & Htx & _ & Hnow).
  apply read_loop_ok_inv in H as (pre & last & Hp & Hall & Hlast & Hr & Ht & Hn);
    [|reflexivity].
  exists ack, pre, last. rewrite Hrx, Hp.
  repeat split; try assumption; [|congruence].
  exists encoded. split; [exact He|congruence].
Qed.

Lemma at_action_result_is_the_result_lines_read_witness :
  exists ack pre last,
    [CRLF; line "+CSCON: 1"; line "0,5"; line ""; line "OK"; line "+CEREG: 5"]
    = ack :: pre ++ last :: [line "+CEREG: 5"]
    /\ Forall (fun raw =>
                 contains Byte.eqb (b "OK") (_remove_line_ending raw) = false)
              pre
    /\ contains Byte.eqb (b "OK") (_remove_line_ending last) = true
    /\ [b "0,5"] = filter result_line (map _remove_line_ending (pre ++ [last]))
    /\ (exists encoded,
           encode (s "AT+NSORF=0,5") = inr encoded
           /\ [line "AT+NSORF=0,5"] = [] ++ [framed encoded])
    /\ 0 = 0.
Proof.
  apply (at_action_result_is_the_result_lines_read
           (s "AT+NSORF=0,5")
           (on_line fresh_N211
              [CRLF; line "+CSCON: 1"; line "0,5"; line ""; line "OK";
               line "+CEREG: 5"])
           [b "0,5"]
           {| dev := set_connected true fresh_N211;
              rx := [line "+CEREG: 5"];
              tx := [line "AT+NSORF=0,5"]; now := 0 |}).
  reflexivity.
Defined.

(** ** Notifications, line by line *)

Lemma utf8_decode_ascii_prefix (p r : list N) :
  forallb (fun c => (c <? 128)%N) p = true ->
  utf8_decode (p ++ r) = option_map (app p) (utf8_decode r).
Proof.
  induction p as [|a p IH]; intros H.
  - cbn [app]. now destruct (utf8_decode r).
  - cbn [forallb] in H. apply andb_true_iff in H as [Ha Hp].
    cbn [app utf8_decode]. change (a <? 128)%N with (a <? 0x80)%N in Ha.
    rewrite Ha, (IH Hp). now destruct (utf8_decode r).
Qed.

(** An ASCII literal in front of valid UTF-8 decodes to itself in front of
    the decoded rest. *)
Lemma decode_after_ascii (p payload : bytes) text :
  forallb (fun c => (c <? 128)%N) (map Byte.to_N p) = true ->
  decode payload = inr text ->
  decode (p ++ payload) = inr (map Byte.to_N p ++ text).
Proof.
  unfold decode. intros Hp Hd. rewrite map_app, (utf8_decode_ascii_prefix _ _ Hp).
  destruct (utf8_decode (map Byte.to_N payload)); [|discriminate].
  cbn in Hd. injection Hd as ->. reflexivity.
Qed.

Lemma find_from_free c (p r : str) i :
  text_free_of c p = true ->
  find_from N.eqb c (p ++ c :: r) i = i + Z.of_nat (List.length p).
Proof.
  unfold text_free_of. revert i; induction p as [|a p IH]; intros i H.
  - cbn [app find_from List.length]. rewrite N.eqb_refl. lia.
  - cbn [forallb] in H. apply andb_true_iff in H as [Ha Hp].
    apply negb_true_iff in Ha.
    cbn [app find_from List.length]. rewrite Ha, (IH _ Hp). lia.
Qed.

Lemma slice_middle {A} (x y z : list A) :
  slice (x ++ y ++ z) (Some (Z.of_nat (List.length x)))
        (Some (Z.of_nat (List.length x) + Z.of_nat (List.length y)))
  = y.
Proof.
  unfold slice, clamp. rewrite !length_app.
  destruct (Z.ltb_spec (Z.of_nat (List.length x)) 0); [lia|].
  destruct (Z.ltb_spec (Z.of_nat (List.length x) + Z.of_nat (List.length y)) 0);
    [lia|].
  rewrite !Z.min_l by lia.
  replace (Z.of_nat (List.length x) + Z.of_nat (List.length y)
           - Z.of_nat (List.length x)) with (Z.of_nat (List.length y)) by lia.
  rewrite !Nat2Z.id, skipn_length_app. apply firstn_length_app.
Qed.

Lemma slice_to_last_but_one {A} (x y : list A) (c : A) :
  slice (x ++ y ++ [c]) (Some (Z.of_nat (List.length x))) (Some (-1)) = y.
Proof.
  unfold slice, clamp. rewrite !length_app. cbn [List.length].
  destruct (Z.ltb_spec (Z.of_nat (List.length x)) 0); [lia|].
  cbn [Z.ltb Z.compare].
  rewrite Z.min_l, Z.max_r by lia.
  replace (-1 + Z.of_nat (List.length x + (List.length y + 1))
           - Z.of_nat (List.length x)) with (Z.of_nat (List.length y)) by lia.
  rewrite !Nat2Z.id, skipn_length_app. apply firstn_length_app.
Qed.

(** The identifier of [+ID:rest] is [ID], provided [ID] holds no colon. *)
Lemma urc_id_of_text (id rest : str) :
  text_free_of 58%N id = true ->
  slice (43%N :: id ++ 58%N :: rest) (Some 1)
        (Some (find N.eqb 58%N (43%N :: id ++ 58%N :: rest)))
  = id.
Proof.
  intros Hid. unfold find. cbn [find_from]. change (43 =? 58)%N with false.
  cbv iota. rewrite (find_from_free _ _ _ _ Hid).
  change (43%N :: id ++ 58%N :: rest) with ([43%N] ++ id ++ 58%N :: rest).
  replace (0 + 1 + Z.of_nat (List.length id))
    with (Z.of_nat (List.length [43%N]) + Z.of_nat (List.length id))
    by (cbn [List.length]; lia).
  apply (slice_middle [43%N] id (58%N :: rest)).
Qed.

Lemma _process_urc_dispatch urc id rest d :
  decode urc = inr (43%N :: id ++ 58%N :: rest) ->
  text_free_of 58%N id = true ->
  _process_urc urc d
  = match dict_get callbackmap id with
    | Some callback => callback urc d
    | None => inr d
    end.
Proof.
  intros Hd Hid. unfold _process_urc. rewrite Hd. cbn [rbind].
  now rewrite (urc_id_of_text _ _ Hid).
Qed.

(** X5.  A notification [+ID:rest] whose identifier is none of the five
    the driver knows changes nothing and raises nothing. *)
Theorem unknown_notification_is_ignored :
  forall urc id rest d,
    decode urc = inr (43%N :: id ++ 58%N :: rest) ->
    text_free_of 58%N id = true ->
    dict_get callbackmap id = None ->
    _process_urc urc d = inr d.
Proof.
  intros urc id rest d Hd Hid Hnone.
  now rewrite (_process_urc_dispatch _ _ _ _ Hd Hid), Hnone.
Qed.

Lemma unknown_notification_is_ignored_witness :
  _process_urc (b "+NPSMR: 1") fresh_N211 = inr fresh_N211.
Proof.
  apply (unknown_notification_is_ignored
           (b "+NPSMR: 1") (s "NPSMR") (s " 1") fresh_N211); reflexivity.
Defined.



(** X7.  A message notification [+NSONMI:data] with no further colon
    appends [data], without its leading blanks, at the end of the queue
    of pending messages. *)
Theorem message_notification_is_queued_last :
  forall data text d,
    decode data = inr text ->
    free_of ":"%byte data = true ->
    _process_urc (b "+NSONMI:" ++ data) d
    = inr (set_available_messages
             (available_messages d ++ [bytes_lstrip data]) d).
Proof.
  intros data text d Hd Hfree.
  rewrite (_process_urc_dispatch _ (s "NSONMI") text d).
  - change (dict_get callbackmap (s "NSONMI"))
      with (Some _add_available_message_callback).
    cbv iota. unfold _add_available_message_callback.
    change (b "+NSONMI:" ++ data) with (b "+NSONMI" ++ ":"%byte :: data).
    rewrite split_free by reflexivity.
    now rewrite (split_free_last _ _ Hfree).
  - apply (decode_after_ascii (b "+NSONMI:") data text); [reflexivity|exact Hd].
  - reflexivity.
Qed.

Lemma message_notification_is_queued_last_witness :
  _process_urc (b "+NSONMI:" ++ b " 0,5")
    (set_available_messages [b "0,12"] fresh_N211)
  = inr (set_available_messages [b "0,12"; b "0,5"] fresh_N211).
Proof.
  apply (message_notification_is_queued_last
           (b " 0,5") (s " 0,5")
           (set_available_messages [b "0,12"] fresh_N211)); reflexivity.
Defined.

(** X8.  An address notification that decodes to [+CGPADDR:], some text
    without a quote, a quote, the address and one last character stores
    the address as [ip]: the slice runs from behind the first quote to the
    last character but one. *)
Theorem address_notification_stores_quoted_address :
  forall urc before address closing d,
    decode urc
    = inr (s "+CGPADDR:" ++ before ++ 34%N :: address ++ [closing]) ->
    text_free_of 34%N before = true ->
    _process_urc urc d = inr (set_ip (Some address) d).
Proof.
  intros urc before address closing d Hd Hfree.
  rewrite (_process_urc_dispatch _ (s "CGPADDR")
             (before ++ 34%N :: address ++ [closing]) d);
    [|exact Hd|reflexivity].
  change (dict_get callbackmap (s "CGPADDR"))
    with (Some _update_ip_address_callback).
  cbv iota. unfold _update_ip_address_callback. rewrite Hd. cbn [rbind].
  do 2 f_equal. f_equal.
  assert (Hq : text_free_of 34%N (s "+CGPADDR:" ++ before) = true).
  { unfold text_free_of in *. rewrite forallb_app.
    apply andb_true_iff. split; [reflexivity|exact Hfree]. }
  unfold find.
  replace (s "+CGPADDR:" ++ before ++ 34%N :: address ++ [closing])
    with ((s "+CGPADDR:" ++ before) ++ 34%N :: address ++ [closing])
    by now rewrite <- app_assoc.
  rewrite (find_from_free _ _ _ _ Hq).
  replace ((s "+CGPADDR:" ++ before) ++ 34%N :: address ++ [closing])
    with (((s "+CGPADDR:" ++ before) ++ [34%N]) ++ address ++ [closing])
    by now rewrite <- app_assoc.
  replace (0 + Z.of_nat (List.length (s "+CGPADDR:" ++ before)) + 1)
    with (Z.of_nat (List.length ((s "+CGPADDR:" ++ before) ++ [34%N])))
    by (rewrite (length_app _ [34%N]); unfold codepoint;
        change (List.length [34%N]) with 1%nat; lia).
  apply slice_to_last_but_one.
Qed.

Lemma address_notification_stores_quoted_address_witness :
  _process_urc (b "+CGPADDR: 0," ++ [x22] ++ b "10.64.0.7" ++ [x22]) fresh_N211
  = inr (set_ip (Some (s "10.64.0.7")) fresh_N211).
Proof.
  apply (address_notification_stores_quoted_address
           (b "+CGPADDR: 0," ++ [x22] ++ b "10.64.0.7" ++ [x22])
           (s " 0,") (s "10.64.0.7") 34%N fresh_N211); reflexivity.
Defined.

(** X9.  A [+CME ERROR:] notification of valid UTF-8, read after any
    number of lines the loop passes over, ends the transaction with
    [CMEError] carrying the whole decoded line. *)
Theorem cme_error_notification_aborts_transaction :
  forall at_command σ σ1 pre raw rest payload text,
    _write at_command σ = Ok tt σ1 ->
    rx σ1 = pre ++ raw :: rest ->
    Forall (fun r => passes (b "OK") r = true) pre ->
    _remove_line_ending raw = b "+CME ERROR:" ++ payload ->
    decode payload = inr text ->
    _at_action at_command σ
    = Raise (CMEError (s "+CME ERROR:" ++ text)) (set_rx rest σ1).
Proof.
  intros at_command σ σ1 pre raw rest payload text Hw Hrx Hpre Hraw Hd.
  rewrite (_at_action_after_write _ _ _ Hw), Hrx.
  rewrite (read_loop_passes _ _ _ _ Hpre).
  cbn [read_loop]. cbv zeta. rewrite Hraw.
  change (startswith Byte.eqb (b "+") (b "+CME ERROR:" ++ payload)) with true.
  cbv iota.
  pose proof (decode_after_ascii (b "+CME ERROR:") payload text eq_refl Hd) as Hline.
  rewrite (_process_urc_dispatch _ (s "CME ERROR") text _ Hline eq_refl).
  change (dict_get callbackmap (s "CME ERROR")) with (Some _handle_cme_error).
  cbv iota. unfold _handle_cme_error. now rewrite Hline.
Qed.

Lemma cme_error_notification_aborts_transaction_witness :
  _at_action (s "AT+NSOCR=1")
    (on_line fresh_N211
       [CRLF; line "0"; line "+CME ERROR: 4"; line "OK"])
  = Raise (CMEError (s "+CME ERROR: 4"))
      {| dev := fresh_N211; rx := [line "OK"];
         tx := [line "AT+NSOCR=1"]; now := 0 |}.
Proof.
  apply (cme_error_notification_aborts_transaction
           (s "AT+NSOCR=1")
           (on_line fresh_N211
              [CRLF; line "0"; line "+CME ERROR: 4"; line "OK"])
           {| dev := fresh_N211;
              rx := [line "0"; line "+CME ERROR: 4"; line "OK"];
              tx := [line "AT+NSOCR=1"]; now := 0 |}
           [line "0"] (line "+CME ERROR: 4") [line "OK"] (b " 4") (s " 4")).
  - reflexivity.
  - reflexivity.
  - repeat constructor.
  - reflexivity.
  - reflexivity.
Defined.

(** ** Writing a command *)

Lemma framed_ends_with_terminator e : endswith Byte.eqb CRLF (framed e) = true.
Proof.
  unfold framed. destruct (endswith Byte.eqb CRLF e) eqn:H; [exact H|].
  apply endswith_app.
Qed.

(** X10.  Whatever the module answers, [_write] has put the command on
    the wire exactly once, ending in one terminator that it adds only if
    the command does not end in one; device and clock are as before. *)
Theorem write_sends_one_terminated_frame :
  forall data encoded σ,
    encode data = inr encoded ->
    exists σ',
      final_state (_write data σ) = Some σ'
      /\ tx σ' = tx σ ++ [framed encoded]
      /\ endswith Byte.eqb CRLF (framed encoded) = true
      /\ framed (framed encoded) = framed encoded
      /\ dev σ' = dev σ
      /\ now σ' = now σ.
Proof.
  intros data encoded σ He.
  assert (Hidem : framed (framed encoded) = framed encoded).
  { unfold framed at 1. now rewrite framed_ends_with_terminator. }
  destruct σ as [d incoming sent t].
  unfold _write, bind, pure, serial_write, readline, gets, ret, raise.
  rewrite He. unfold set_tx; cbn [dev rx tx now]. fold (framed encoded).
  destruct incoming as [|ack rest]; unfold set_rx; cbn [dev rx tx now];
    match goal with |- context [bytes_eqb ?x CRLF] => destruct (bytes_eqb x CRLF) end;
    eexists; (split; [reflexivity|]); cbn [dev rx tx now];
    repeat split; auto using framed_ends_with_terminator.
Qed.

Lemma write_sends_one_terminated_frame_witness :
  exists σ',
    final_state
      (_write (s "AT+CFUN=1") (on_line fresh_N211 [line "ERROR"])) = Some σ'
    /\ tx σ' = [] ++ [framed (b "AT+CFUN=1")]
    /\ endswith Byte.eqb CRLF (framed (b "AT+CFUN=1")) = true
    /\ framed (framed (b "AT+CFUN=1")) = framed (b "AT+CFUN=1")
    /\ dev σ' = fresh_N211
    /\ now σ' = 0.
Proof.
  apply (write_sends_one_terminated_frame
           (s "AT+CFUN=1") (b "AT+CFUN=1") (on_line fresh_N211 [line "ERROR"])).
  reflexivity.
Defined.

Lemma slice_from_length {A} (x y : list A) :
  slice (x ++ y) (Some (Z.of_nat (List.length x))) None = y.
Proof.
  unfold slice, clamp. rewrite length_app.
  destruct (Z.ltb_spec (Z.of_nat (List.length x)) 0); [lia|].
  rewrite Z.min_l by lia.
  replace (Z.of_nat (List.length x + List.length y) - Z.of_nat (List.length x))
    with (Z.of_nat (List.length y)) by lia.
  rewrite !Nat2Z.id, skipn_length_app. apply firstn_all.
Qed.

(** X11.  With echo on, the acknowledgement is accepted as soon as the
    terminator is preceded by [len(data) + 1] bytes; what these bytes are
    is not looked at. *)
Theorem echo_is_skipped_by_length_only :
  forall data encoded junk rest σ,
    echo (dev σ) = true ->
    encode data = inr encoded ->
    rx σ = (junk ++ CRLF) :: rest ->
    List.length junk = S (List.length data) ->
    _write data σ
    = Ok tt (set_rx rest (set_tx (tx σ ++ [framed encoded]) σ)).
Proof.
  intros data encoded junk rest σ Hecho He Hrx Hlen.
  destruct σ as [d incoming sent t]. cbn [dev rx tx now] in *. subst incoming.
  unfold _write, bind, pure, serial_write, readline, gets, ret, raise.
  rewrite He. unfold set_tx, set_rx; cbn [dev rx tx now]. rewrite Hecho.
  replace (Z.of_nat (List.length data) + 1) with (Z.of_nat (List.length junk))
    by lia.
  rewrite slice_from_length. reflexivity.
Qed.

Lemma echo_is_skipped_by_length_only_witness :
  _write (s "AT+CEREG?") (on_line fresh_R4 [line "0123456789"; line "OK"])
  = Ok tt {| dev := fresh_R4; rx := [line "OK"];
             tx := [line "AT+CEREG?"]; now := 0 |}.
Proof.
  apply (echo_is_skipped_by_length_only
           (s "AT+CEREG?") (b "AT+CEREG?") (b "0123456789") [line "OK"]
           (on_line fresh_R4 [line "0123456789"; line "OK"]));
    reflexivity.
Defined.

(** ** Polling for registration *)

Lemma cereg_query_registered d rest tx0 t :
  echo d = true ->
  _at_action (s "AT+CEREG?")
    {| dev := d; rx := registered_reply ++ rest; tx := tx0; now := t |}
  = Ok []
      {| dev := set_eps_reg_status (Some 5) d; rx := rest;
         tx := tx0 ++ [CEREG_QUERY]; now := t |}.
Proof. destruct d as [m e]. cbn [echo]. intros ->. reflexivity. Qed.

Lemma poll_loop_registers rt timeout start_time rest :
  forall n fuel d tx0 t0,
    (n < fuel)%nat ->
    echo d = true ->
    poll_loop rt fuel (OpStr (s "TELIA")) timeout start_time
      {| dev := d; rx := unregistered_polls n ++ registered_reply ++ rest;
         tx := tx0; now := t0 |}
    = Ok tt
        {| dev := set_eps_reg_status (Some 5) d;
           rx := rest;
           tx := tx0 ++ repeat CEREG_QUERY (S n);
           now := t0 + 2 * Z.of_nat (S n) |}.
Proof.
  induction n as [|n IH]; intros fuel d tx0 t0 Hfuel Hecho;
    (destruct fuel as [|fuel]; [lia|]); rewrite poll_loop_unfold.
  - unfold bind at 1. cbn [sleep unregistered_polls app].
    unfold set_now. cbn [dev rx tx now].
    unfold bind at 1. rewrite (cereg_query_registered _ _ _ _ Hecho).
    reflexivity.
  - unfold bind at 1. cbn [sleep unregistered_polls].
    unfold set_now. cbn [dev rx tx now].
    rewrite <- app_assoc.
    unfold bind at 1. rewrite (cereg_query_not_registered _ _ _ _ Hecho).
    unfold bind at 1. cbn [gets dev].
    replace (eps_reg_status (set_eps_reg_status (Some 0) d)) with (Some 0)
      by reflexivity.
    cbn [eq_status Z.eqb].
    rewrite IH by (try lia; exact Hecho).
    f_equal. f_equal.
    + rewrite <- app_assoc. reflexivity.
    + lia.
Qed.

(** X12.  However often the R4 module first reports status [0], the poll
    that reports [5] ends the wait for TELIA at once: [n + 1] queries, two
    seconds apart, and no timeout, however short, turns this into a
    failure. *)
Theorem polling_returns_on_first_registered_poll :
  forall rt timeout n rest,
    _await_connection_R4 rt (OpStr (s "TELIA")) timeout
      (on_line fresh_R4 (unregistered_polls n ++ registered_reply ++ rest))
    = Ok tt
        {| dev := set_eps_reg_status (Some 5) fresh_R4;
           rx := rest;
           tx := repeat CEREG_QUERY (S n);
           now := 2 * Z.of_nat (S n) |}.
Proof.
  intros rt timeout n rest. unfold _await_connection_R4, on_line.
  unfold bind, time. cbn [now rx].
  rewrite poll_loop_registers.
  - reflexivity.
  - rewrite length_app, length_unregistered_polls. lia.
  - reflexivity.
Qed.

(** ** Band masks *)

Lemma band_mask_loop_bits :
  forall bands total mask,
    band_mask_loop bands total = inr mask ->
    forall n, 0 <= n ->
      Z.testbit mask n
      = Z.testbit total n || existsb (fun band => band - 1 =? n) bands.
Proof.
  induction bands as [|band bands IH]; intros total mask H n Hn.
  - cbn in H. injection H as <-. cbn [existsb]. now rewrite orb_false_r.
  - cbn [band_mask_loop] in H.
    destruct (Z.ltb_spec (band - 1) 0) as [|Hband]; [discriminate|].
    rewrite (IH _ _ H n Hn), Z.lor_spec, Z.shiftl_1_l.
    rewrite (Z.pow2_bits_eqb _ _ Hband).
    cbn [existsb]. now rewrite orb_assoc.
Qed.

Lemma band_mask_loop_total :
  forall bands total,
    Forall (fun band => 1 <= band) bands ->
    exists mask, band_mask_loop bands total = inr mask.
Proof.
  induction bands as [|band bands IH]; intros total H.
  - now exists total.
  - inversion H as [|? ? Hband Hrest]; subst. cbn [band_mask_loop].
    destruct (Z.ltb_spec (band - 1) 0); [lia|]. now apply IH.
Qed.

(** X13.  For bands numbered from 1, the mask [set_band_mask] computes
    has bit [band - 1] set exactly for the bands of the list, in whatever
    order and however often they are listed. *)
Theorem band_mask_has_one_bit_per_band :
  forall bands,
    Forall (fun band => 1 <= band) bands ->
    exists mask,
      band_mask_loop bands 0 = inr mask
      /\ forall band, 1 <= band ->
           (Z.testbit mask (band - 1) = true <-> In band bands).
Proof.
  intros bands Hall.
  destruct (band_mask_loop_total bands 0 Hall) as [mask Hmask].
  exists mask. split; [exact Hmask|].
  intros band Hband.
  rewrite (band_mask_loop_bits _ _ _ Hmask) by lia.
  rewrite Z.bits_0, orb_false_l, existsb_exists. split.
  - intros [x [Hin Hx]]. apply Z.eqb_eq in Hx.
    replace band with x by lia. exact Hin.
  - intros Hin. exists band. split; [exact Hin|apply Z.eqb_refl].
Qed.

Lemma band_mask_has_one_bit_per_band_witness :
  exists mask,
    band_mask_loop [20; 8; 20] 0 = inr mask
    /\ forall band, 1 <= band ->
         (Z.testbit mask (band - 1) = true <-> In band [20; 8; 20]).
Proof.
  apply (band_mask_has_one_bit_per_band [20; 8; 20]).
  repeat constructor; lia.
Defined.

Lemma band_mask_loop_rejects :
  forall bands total,
    Exists (fun band => band <= 0) bands ->
    band_mask_loop bands total = inl ValueError.
Proof.
  induction bands as [|band bands IH]; intros total H.
  - inversion H.
  - cbn [band_mask_loop].
    destruct (Z.ltb_spec (band - 1) 0) as [|Hband]; [reflexivity|].
    inversion H as [? ? Hbad|? ? Hrest]; subst; [lia|]. now apply IH.
Qed.

(** X14.  A band below 1 anywhere in the list makes [set_band_mask] raise
    [ValueError] before anything is written. *)
Theorem set_band_mask_rejects_band_below_one :
  forall rt band bands σ,
    Exists (fun x => x <= 0) (band :: bands) ->
    set_band_mask rt (Some (band :: bands)) σ = Raise ValueError σ.
Proof.
  intros rt band bands σ H. cbv beta iota zeta delta [set_band_mask].
  unfold bind at 1. now rewrite (band_mask_loop_rejects _ 0 H).
Qed.

Lemma set_band_mask_rejects_band_below_one_witness :
  set_band_mask ascii_runtime (Some [20; 0]) (on_line fresh_R4 [])
  = Raise ValueError (on_line fresh_R4 []).
Proof.
  apply (set_band_mask_rejects_band_below_one ascii_runtime 20 [0]).
  right. left. lia.
Defined.

(** ** Sockets *)

(** X15.  [SaraR4Module.create_socket] with a type that is neither UDP
    nor TCP in any letter case raises [ValueError] before anything is
    written. *)
Theorem create_socket_rejects_unknown_type :
  forall rt socket_type port σ,
    str_eqb (str_upper rt socket_type) (s "UDP") = false ->
    str_eqb (str_upper rt socket_type) (s "TCP") = false ->
    create_socket_R4 rt socket_type port σ = Raise ValueError σ.
Proof.
  intros rt socket_type port σ Hudp Htcp.
  unfold create_socket_R4. unfold bind at 1. now rewrite Hudp, Htcp.
Qed.

Lemma create_socket_rejects_unknown_type_witness :
  create_socket_R4 ascii_runtime (s "raw") (Some 5683) (on_line fresh_R4 [])
  = Raise ValueError (on_line fresh_R4 []).
Proof.
  apply (create_socket_rejects_unknown_type ascii_runtime (s "raw"));
    reflexivity.
Defined.

(** ** Reports with foreign lines *)

Lemma map_result_app_bind {A B} (f : A -> result B) l1 l2 :
  map_result f (l1 ++ l2)
  = rbind (map_result f l1) (fun r1 =>
    rbind (map_result f l2) (fun r2 => inr (r1 ++ r2))).
Proof.
  induction l1 as [|a l1 IH].
  - cbn [app map_result rbind]. now destruct (map_result f l2).
  - cbn [app map_result]. destruct (f a) as [e|c]; [reflexivity|].
    cbn [rbind]. rewrite IH.
    destruct (map_result f l1) as [e|r1]; [reflexivity|]. cbn [rbind].
    now destruct (map_result f l2).
Qed.

(** X16.  A line with a colon whose tag is not [NUESTATS] is passed over:
    the report folds as if the line were not there. *)
Theorem foreign_tag_line_is_skipped :
  forall rt before foreign after text tag value more d,
    decode foreign = inr text ->
    split N.eqb 58%N text = tag :: value :: more ->
    str_eqb (str_strip tag) (s "NUESTATS") = false ->
    _parse_radio_stats rt (before ++ foreign :: after) d
    = _parse_radio_stats rt (before ++ after) d.
Proof.
  intros rt before foreign after text tag value more d Hd Hsplit Htag.
  assert (Hnone : _parse_radio_stats_string rt foreign = inr None).
  { unfold _parse_radio_stats_string. rewrite Hd. cbn [rbind]. rewrite Hsplit.
    cbn [item nth_error or_raise rbind]. now rewrite Htag. }
  unfold _parse_radio_stats. rewrite !map_result_app_bind.
  destruct (map_result (_parse_radio_stats_string rt) before) as [e|r1];
    [reflexivity|].
  cbn [rbind map_result]. rewrite Hnone. cbn [rbind].
  destruct (map_result (_parse_radio_stats_string rt) after) as [e|r2];
    [reflexivity|].
  cbn [rbind]. now rewrite !fold_left_app.
Qed.

Lemma foreign_tag_line_is_skipped_witness :
  _parse_radio_stats ascii_runtime
    ([TOTAL_POWER_LINE] ++ b "NUESTATSX: 1,2,3" :: [SIGNAL_POWER_LINE])
    fresh_N211
  = _parse_radio_stats ascii_runtime
      ([TOTAL_POWER_LINE] ++ [SIGNAL_POWER_LINE]) fresh_N211.
Proof.
  apply (foreign_tag_line_is_skipped
           ascii_runtime [TOTAL_POWER_LINE] (b "NUESTATSX: 1,2,3")
           [SIGNAL_POWER_LINE] (s "NUESTATSX: 1,2,3")
           (s "NUESTATSX") (s " 1,2,3") [] fresh_N211); reflexivity.
Defined.

(** ** Commands in sequence *)

Lemma _write_acknowledged data encoded d rest sent t :
  echo d = false ->
  encode data = inr encoded ->
  _write data {| dev := d; rx := CRLF :: rest; tx := sent; now := t |}
  = Ok tt {| dev := d; rx := rest; tx := sent ++ [framed encoded]; now := t |}.
Proof.
  intros Hecho He.
  unfold _write, bind, pure, serial_write, readline, gets, ret, raise.
  rewrite He. unfold set_tx, set_rx; cbn [dev rx tx now]. now rewrite Hecho.
Qed.

(** A quiet reply ends the transaction with the lines it holds. *)
Lemma _at_action_quiet at_command encoded d body rest sent t :
  echo d = false ->
  encode at_command = inr encoded ->
  Forall (fun r => passes (b "OK") r = true) body ->
  _at_action at_command
    {| dev := d; rx := quiet_reply body ++ rest; tx := sent; now := t |}
  = Ok (collected body)
       {| dev := d; rx := rest; tx := sent ++ [framed encoded]; now := t |}.
Proof.
  intros Hecho He Hbody. unfold quiet_reply. cbn [app].
  rewrite (_at_action_after_write _ _ _ (_write_acknowledged _ _ _ _ _ _ Hecho He)).
  cbn [rx]. rewrite <- app_assoc. cbn [app].
  rewrite (read_loop_passes _ _ _ _ Hbody).
  rewrite read_loop_last by reflexivity.
  cbn [app]. now rewrite app_nil_r.
Qed.

(** X17.  On a module that answers each command quietly, whatever result
    lines it adds, [SaraN211Module.setup] sends its four commands in the
    order CSCON, CEREG, NPSMR, CFUN, reads exactly the four replies and
    leaves the device state alone. *)
Theorem setup_sends_four_commands_in_order :
  forall d reply1 reply2 reply3 reply4 rest sent t,
    echo d = false ->
    Forall (fun r => passes (b "OK") r = true) reply1 ->
    Forall (fun r => passes (b "OK") r = true) reply2 ->
    Forall (fun r => passes (b "OK") r = true) reply3 ->
    Forall (fun r => passes (b "OK") r = true) reply4 ->
    setup_N211
      {| dev := d;
         rx := quiet_reply reply1 ++ quiet_reply reply2 ++ quiet_reply reply3
               ++ quiet_reply reply4 ++ rest;
         tx := sent; now := t |}
    = Ok tt
        {| dev := d; rx := rest;
           tx := sent ++ [ line "AT+CSCON=1"; line "AT+CEREG=1";
                           line "AT+NPSMR=1"; line "AT+CFUN=1" ];
           now := t |}.
Proof.
  intros d reply1 reply2 reply3 reply4 rest sent t Hecho H1 H2 H3 H4.
  unfold setup_N211, enable_signaling_connection_urc,
    enable_network_registration, enable_psm_mode, enable_radio_functions.
  unfold bind, ret.
  rewrite (_at_action_quiet AT_ENABLE_SIGNALING_CONNECTION_URC (b "AT+CSCON=1") _ _ _ _ _ Hecho eq_refl H1).
  rewrite (_at_action_quiet AT_ENABLE_NETWORK_REGISTRATION (b "AT+CEREG=1") _ _ _ _ _ Hecho eq_refl H2).
  rewrite (_at_action_quiet AT_ENABLE_POWER_SAVING_MODE (b "AT+NPSMR=1") _ _ _ _ _ Hecho eq_refl H3).
  rewrite (_at_action_quiet AT_ENABLE_ALL_RADIO_FUNCTIONS (b "AT+CFUN=1") _ _ _ _ _ Hecho eq_refl H4).
  rewrite <- !app_assoc. reflexivity.
Qed.

Lemma setup_sends_four_commands_in_order_witness :
  setup_N211
    (on_line fresh_N211
       (quiet_reply [] ++ quiet_reply [line ""] ++ quiet_reply []
        ++ quiet_reply [line "1"] ++ [line "+CEREG: 2"]))
  = Ok tt
      {| dev := fresh_N211; rx := [line "+CEREG: 2"];
         tx := [] ++ [ line "AT+CSCON=1"; line "AT+CEREG=1";
                       line "AT+NPSMR=1"; line "AT+CFUN=1" ];
         now := 0 |}.
Proof.
  apply (setup_sends_four_commands_in_order
           fresh_N211 [] [line ""] [] [line "1"] [line "+CEREG: 2"] [] 0);
    try reflexivity; repeat constructor.
Defined.



(** ** Which operators [connect] can reach *)

Lemma str_eqb_sym (x y : str) : str_eqb x y = str_eqb y x.
Proof.
  unfold str_eqb. revert y; induction x as [|a x IH]; intros [|c y];
    try reflexivity.
  cbn [seq_eqb]. now rewrite IH, N.eqb_sym.
Qed.

Lemma poll_loop_unsupported_never_returns rt operator timeout start_time :
  supported rt operator = false ->
  forall fuel σ,
    returns (poll_loop rt fuel operator timeout start_time σ) = false.
Proof.
  intros Hop.
  induction fuel as [|fuel IH]; intros σ; [reflexivity|].
  rewrite poll_loop_unfold.
  apply bind_never_returns; intros _ σ1.
  apply bind_never_returns; intros _ σ2.
  apply bind_never_returns; intros status σ3.
  destruct (eq_status status 0); [apply IH|].
  destruct operator as [| |name]; try reflexivity.
  cbn [supported] in Hop. apply orb_false_iff in Hop as [Ht Hr].
  unfold bind, upper, ret, raise. now rewrite Ht, Hr.
Qed.

Lemma await_connection_unsupported_never_returns rt operator σ :
  supported rt operator = false ->
  returns (_await_connection rt operator σ) = false.
Proof.
  intros Hop. unfold _await_connection.
  apply bind_never_returns; intros m σ1.
  destruct m.
  - destruct operator as [| |name]; try reflexivity.
    cbn [supported] in Hop. apply orb_false_iff in Hop as [Ht Hr].
    unfold _await_connection_N211, bind, upper, ret, raise.
    now rewrite Ht, Hr.
  - unfold _await_connection_R4.
    apply bind_never_returns; intros t σ2.
    now apply poll_loop_unsupported_never_returns.
Qed.

(** X19.  [connect] comes back only for an operator name that is TELIA or
    TRE in some letter case: for [None], an empty name, an operator code
    or any other name it raises or never returns. *)
Theorem connect_returns_only_for_supported_operator :
  forall rt operator σ,
    returns (connect rt operator σ) = true ->
    supported rt operator = true.
Proof.
  intros rt operator σ H.
  destruct (supported rt operator) eqn:Hop; [reflexivity|].
  rewrite <- H. symmetry. unfold connect.
  apply bind_never_returns; intros at_command σ1.
  apply bind_never_returns; intros _ σ2.
  now apply await_connection_unsupported_never_returns.
Qed.

Lemma connect_returns_only_for_supported_operator_witness :
  supported ascii_runtime (OpStr (s "Telia")) = true.
Proof.
  apply (connect_returns_only_for_supported_operator
           ascii_runtime (OpStr (s "Telia"))
           (on_line fresh_N211 [CRLF; line "OK"; line "+CEREG: 5"])).
  reflexivity.
Defined.

Lemma bind_ext {A B} (m1 m2 : M A) (k1 k2 : A -> M B) σ :
  m1 σ = m2 σ ->
  (forall a σ', k1 a σ' = k2 a σ') ->
  bind m1 k1 σ = bind m2 k2 σ.
Proof.
  intros Hm Hk. unfold bind. rewrite Hm. destruct (m2 σ); auto.
Qed.

Lemma poll_loop_by_upper rt name1 name2 timeout start_time :
  str_upper rt name1 = str_upper rt name2 ->
  forall fuel σ,
    poll_loop rt fuel (OpStr name1) timeout start_time σ
    = poll_loop rt fuel (OpStr name2) timeout start_time σ.
Proof.
  intros Hup.
  induction fuel as [|fuel IH]; intros σ; [reflexivity|].
  rewrite !poll_loop_unfold.
  apply bind_ext; [reflexivity|]; intros _ σ1.
  apply bind_ext; [reflexivity|]; intros _ σ2.
  apply bind_ext; [reflexivity|]; intros status σ3.
  destruct (eq_status status 0); [apply IH|].
  unfold bind, upper, ret, raise, time. rewrite Hup.
  split_ifs; try reflexivity; apply IH.
Qed.

(** X20.  [connect] looks at an operator name only through [upper()]:
    two non-empty names with the same upper-case form behave alike in
    every state, down to the bytes written. *)
Theorem connect_depends_on_upper_case_name_only :
  forall rt name1 name2 σ,
    str_eqb name1 [] = false ->
    str_eqb name2 [] = false ->
    str_upper rt name1 = str_upper rt name2 ->
    connect rt (OpStr name1) σ = connect rt (OpStr name2) σ.
Proof.
  intros rt name1 name2 σ H1 H2 Hup.
  unfold connect, truthy. rewrite H1, H2. cbn [negb].
  apply bind_ext.
  { unfold bind, upper, ret. now rewrite Hup. }
  intros at_command σ1.
  apply bind_ext; [reflexivity|]; intros _ σ2.
  unfold _await_connection.
  apply bind_ext; [reflexivity|]; intros m σ3.
  destruct m.
  - unfold _await_connection_N211, bind, upper, ret. now rewrite Hup.
  - unfold _await_connection_R4.
    apply bind_ext; [reflexivity|]; intros start σ4.
    now apply poll_loop_by_upper.
Qed.

Lemma connect_depends_on_upper_case_name_only_witness :
  connect ascii_runtime (OpStr (s "tre"))
    (on_line fresh_N211 [CRLF; line "OK"; line "+CEREG: 1"])
  = connect ascii_runtime (OpStr (s "TrE"))
      (on_line fresh_N211 [CRLF; line "OK"; line "+CEREG: 1"]).
Proof.
  apply (connect_depends_on_upper_case_name_only
           ascii_runtime (s "tre") (s "TrE")); reflexivity.
Defined.

(** ** Receiving a datagram, end to end *)

Lemma bytes_eqb_eq (x y : bytes) : bytes_eqb x y = true -> x = y.
Proof.
  unfold bytes_eqb. revert y; induction x as [|a x IH]; intros [|c y] H;
    try discriminate; [reflexivity|].
  cbn [seq_eqb] in H. apply andb_true_iff in H as [Hac Hxy].
  apply byte_dec_bl in Hac. subst c. now rewrite (IH _ Hxy).
Qed.

Lemma encode_NSONMI : encode (s "+NSONMI") = inr (b "+NSONMI").
Proof. reflexivity. Qed.

(** X21.  On an N211 with nothing pending, a [+NSONMI:] announcement
    followed by a six-field reply to the [AT+NSORF] it triggers makes
    [receive_udp_data] return the payload whose hex text the reply
    carries; the announcement is consumed from the queue again and one
    command has been written. *)
Theorem receive_udp_data_returns_announced_payload :
  forall d announce info text arg encoded reply
         socket ip port length remaining payload rest sent t,
    echo d = false ->
    available_messages d = [] ->
    _remove_line_ending announce = b "+NSONMI:" ++ info ->
    free_of ":"%byte info = true ->
    decode info = inr text ->
    decode (bytes_lstrip info) = inr arg ->
    encode (s "AT+NSORF=" ++ arg) = inr encoded ->
    _remove_line_ending reply
    = socket ++ b "," ++ ip ++ b "," ++ port ++ b "," ++ length ++ b ","
      ++ [x22] ++ bytes_upper (hexlify payload) ++ [x22] ++ b ","
      ++ remaining ->
    passes (b "OK") reply = true ->
    free_of x2c socket = true ->
    free_of x2c ip = true ->
    free_of x2c port = true ->
    free_of x2c length = true ->
    free_of x2c remaining = true ->
    receive_udp_data
      {| dev := d; rx := announce :: quiet_reply [reply] ++ rest;
         tx := sent; now := t |}
    = Ok payload
        {| dev := d; rx := rest; tx := sent ++ [framed encoded]; now := t |}.
Proof.
  intros d announce info text arg encoded reply socket ip port length
    remaining payload rest sent t Hecho Hqueue Hann Hfree Htext Harg Henc
    Hreply Hpass Hs Hi Hp Hl Hr.
  pose proof (message_urc := decode_after_ascii (b "+NSONMI:") info text eq_refl Htext).
  assert (Hurc : _process_urc (b "+NSONMI:" ++ info) d
                 = inr (set_available_messages [bytes_lstrip info] d)).
  { rewrite (_process_urc_dispatch _ (s "NSONMI") text d message_urc eq_refl).
    change (dict_get callbackmap (s "NSONMI"))
      with (Some _add_available_message_callback).
    cbv iota. unfold _add_available_message_callback.
    change (b "+NSONMI:" ++ info) with (b "+NSONMI" ++ ":"%byte :: info).
    rewrite split_free by reflexivity.
    now rewrite (split_free_last _ _ Hfree), Hqueue. }
  assert (Hkept : collected [reply] = [_remove_line_ending reply]).
  { rewrite collected_cons. unfold passes in Hpass.
    apply andb_true_iff in Hpass as [_ Hok]. apply negb_true_iff in Hok.
    unfold kept.
    destruct (bytes_eqb (_remove_line_ending reply) (b "OK")) eqn:Heq.
    - apply bytes_eqb_eq in Heq. rewrite Heq in Hok. discriminate.
    - rewrite Hreply. now destruct socket. }
  unfold receive_udp_data.
  unfold bind at 1. unfold _read_line_until_contains, bind at 1, pure.
  rewrite encode_NSONMI. cbn [rx read_loop]. cbv zeta. rewrite Hann.
  change (startswith Byte.eqb (b "+") (b "+NSONMI:" ++ info)) with true.
  cbv iota. unfold set_rx at 1. cbn [dev rx tx now]. rewrite Hurc.
  change (contains Byte.eqb (b "+NSONMI") (b "+NSONMI:" ++ info)) with true.
  cbv iota.
  unfold bind at 1, pop_available_message, set_dev, set_rx.
  cbn [dev rx tx now available_messages set_available_messages].
  unfold bind at 1. rewrite Harg. cbn [pure].
  unfold bind at 1.
  rewrite (_at_action_quiet (s "AT+NSORF=" ++ arg) encoded).
  - rewrite Hkept. unfold bind at 1. cbn [item nth_error or_raise pure].
    rewrite bind_ret, Hreply.
    rewrite (parse_udp_response_of_fields _ _ _ _ _ _ Hs Hi Hp Hl Hr).
    cbn [pure]. f_equal. f_equal.
    destruct d. cbn in Hqueue. now subst.
  - exact Hecho.
  - exact Henc.
  - now repeat constructor.
Qed.

Lemma receive_udp_data_returns_announced_payload_witness :
  receive_udp_data
    {| dev := fresh_N211;
       rx := line "+NSONMI: 0,5" :: quiet_reply [DATAGRAM_REPLY] ++ [];
       tx := []; now := 0 |}
  = Ok (b "hello")
       {| dev := fresh_N211; rx := [];
          tx := [] ++ [framed (b "AT+NSORF=0,5")]; now := 0 |}.
Proof.
  apply (receive_udp_data_returns_announced_payload
           fresh_N211 (line "+NSONMI: 0,5") (b " 0,5") (s " 0,5") (s "0,5")
           (b "AT+NSORF=0,5") DATAGRAM_REPLY
           (b "0") ([x22] ++ b "10.0.0.1" ++ [x22]) (b "5683") (b "5") (b "0")
           (b "hello") [] [] 0); reflexivity.
Defined.

(** ** A module that never says OK *)

Lemma read_loop_silence needle :
  contains Byte.eqb needle [] = false ->
  forall pending acc σ,
    Forall (fun r => passes needle r = true) pending ->
    exists σ',
      read_loop needle pending acc σ = Hang σ'
      /\ (pending <> [] -> rx σ' = [])
      /\ tx σ' = tx σ /\ dev σ' = dev σ /\ now σ' = now σ.
Proof.
  intros Hneedle.
  induction pending as [|raw rest IH]; intros acc σ Hall.
  - exists σ. cbn [read_loop]. rewrite Hneedle. now repeat split.
  - inversion Hall as [|? ? Hraw Hrest]; subst.
    rewrite (read_loop_pass _ _ _ _ _ Hraw).
    destruct (IH (if kept (_remove_line_ending raw)
                  then acc ++ [_remove_line_ending raw] else acc)
                 (set_rx rest σ) Hrest)
      as (σ' & Hloop & Hrx & Htx & Hdev & Hnow).
    exists σ'. rewrite Hloop. repeat split; try assumption.
    intros _. destruct rest as [|r rest']; [|apply Hrx; discriminate].
    cbn [read_loop] in Hloop. rewrite Hneedle in Hloop.
    now injection Hloop as <-.
Qed.

(** X22.  [_at_action] has no timeout of its own: when the command is
    acknowledged and the module then sends only lines the loop passes
    over, none of them containing [OK], the call reads them all and never
    returns. *)
Theorem at_action_waits_forever_without_OK :
  forall at_command σ σ1,
    _write at_command σ = Ok tt σ1 ->
    Forall (fun r => passes (b "OK") r = true) (rx σ1) ->
    exists σ',
      _at_action at_command σ = Hang σ'
      /\ tx σ' = tx σ1 /\ dev σ' = dev σ1.
Proof.
  intros at_command σ σ1 Hw Hall.
  rewrite (_at_action_after_write _ _ _ Hw).
  destruct (read_loop_silence (b "OK") eq_refl (rx σ1) [] σ1 Hall)
    as (σ' & Hloop & _ & Htx & Hdev & _).
  exists σ'. now rewrite Hloop.
Qed.

Lemma at_action_waits_forever_without_OK_witness :
  exists σ',
    _at_action (s "AT+CGPADDR")
      (on_line fresh_N211 [CRLF; line "0"; line ""; line "1"]) = Hang σ'
    /\ tx σ' = [line "AT+CGPADDR"] /\ dev σ' = fresh_N211.
Proof.
  apply (at_action_waits_forever_without_OK
           (s "AT+CGPADDR")
           (on_line fresh_N211 [CRLF; line "0"; line ""; line "1"])
           {| dev := fresh_N211; rx := [line "0"; line ""; line "1"];
              tx := [line "AT+CGPADDR"]; now := 0 |}).
  - reflexivity.
  - repeat constructor.
Defined.

(** ** The commands as they go out *)

(** Without bands, or with an empty list, the mask is that of band 20. *)
Lemma set_band_mask_default rt bands :
  bands = None \/ bands = Some [] ->
  set_band_mask rt bands (on_line fresh_R4 [])
  = Raise ValueError
      {| dev := fresh_R4; rx := [];
         tx := [line "AT+UBANDMASK=1,524288,524288"]; now := 0 |}.
Proof. intros [-> | ->]; reflexivity. Qed.

Lemma create_socket_commands rt :
  create_socket_R4 rt (s "udp") (Some 0) (on_line fresh_R4 [])
  = Raise ValueError
      {| dev := fresh_R4; rx := []; tx := [line "AT+USOCR=17"]; now := 0 |}
  /\ create_socket_R4 rt (s "Tcp") (Some 5683) (on_line fresh_R4 [])
     = Raise ValueError
         {| dev := fresh_R4; rx := []; tx := [line "AT+USOCR=6,5683"];
            now := 0 |}
  /\ create_socket_N211 rt 5683 (on_line fresh_N211 [])
     = Raise ValueError
         {| dev := fresh_N211; rx := [];
            tx := [ b "AT+NSOCR=" ++ [x22] ++ b "DGRAM" ++ [x22]
                    ++ b ",17,5683" ++ CRLF ];
            now := 0 |}
  /\ set_pdp_context rt (s "internet") (s "IP") 1 (on_line fresh_R4 [])
     = Raise ValueError
         {| dev := fresh_R4; rx := [];
            tx := [ b "AT+CGDCONT=1," ++ [x22] ++ b "IP" ++ [x22] ++ b ","
                    ++ [x22] ++ b "internet" ++ [x22] ++ CRLF ];
            now := 0 |}.
Proof. repeat split; reflexivity. Qed.
